(** * discordrus: a logrus hook that posts log entries to a Discord webhook

    A shallow embedding of [hook.go] and the properties of its two entry
    points, [NewHook]/[Levels] and [Fire].

    [Fire] has a synchronous half (the URL guard and the snapshot of the
    request found under [entry.Data["request"]]) and an asynchronous half
    (the goroutine that renders the request, composes the embeds and posts
    them).  The synchronous half mutates objects the caller still holds, so
    it is modelled over an explicit store of requests and body readers; the
    goroutine is modelled as the function [deliver] from what it captured
    to the POST it issues.

    Calls into the Go standard library whose behaviour is not fixed by this
    repository (JSON string escaping, time and float formatting, multipart
    parsing, URL validation) are taken from a [Runtime] record; [GoRef]
    supplies one such runtime for running the model on concrete entries. *)

From Stdlib Require Import ZArith NArith String Ascii List Lia.
From Stdlib Require Import DecimalString.
From stdpp Require Import gmap strings list fin_maps.
Import ListNotations.

Local Open Scope string_scope.
Set Warnings "-register-all".

(** ** Strings

    Go strings and byte slices are sequences of bytes; [string] (a list of
    8-bit [ascii]) is the same data, and [String.length] is Go's [len]. *)

(** [strings.Contains(s, substr)]. *)
Fixpoint strings_Contains (s substr : string) : bool :=
  String.prefix substr s
  || match s with
     | EmptyString => false
     | String _ s' => strings_Contains s' substr
     end.

Definition upper_byte (c : ascii) : ascii :=
  let n := nat_of_ascii c in
  if (97 <=? n)%nat && (n <=? 122)%nat then ascii_of_nat (n - 32) else c.

(** [strings.ToUpper] on the ASCII range, which covers every level name. *)
Fixpoint strings_ToUpper (s : string) : string :=
  match s with
  | EmptyString => EmptyString
  | String c s' => String (upper_byte c) (strings_ToUpper s')
  end.

(** The two ways [hook.go] fences a text: with a blank before the closing
    fence (values copied from the entry or the request) and without
    (error texts and generated JSON). *)
Definition fence_sp (s : string) : string := "```" +:+ s +:+ " ```".
Definition fence (s : string) : string := "```" +:+ s +:+ "```".

(** ** logrus levels *)

(** [logrus.Level] is a [uint32]; only seven values are named. *)
Definition Level := N.

Definition PanicLevel : Level := 0%N.
Definition FatalLevel : Level := 1%N.
Definition ErrorLevel : Level := 2%N.
Definition WarnLevel  : Level := 3%N.
Definition InfoLevel  : Level := 4%N.
Definition DebugLevel : Level := 5%N.
Definition TraceLevel : Level := 6%N.

(** [Level.String()]. *)
Definition Level_String (l : Level) : string :=
  match l with
  | 0%N => "panic"
  | 1%N => "fatal"
  | 2%N => "error"
  | 3%N => "warning"
  | 4%N => "info"
  | 5%N => "debug"
  | 6%N => "trace"
  | _ => "unknown"
  end.

(** ** Errors

    Go compares errors by identity; [hook.go] singles out one sentinel,
    [http.ErrNotMultipart].  Every other error is known by its text. *)
Inductive error :=
| ErrNotMultipart
| ErrText (msg : string).

Definition Error (e : error) : string :=
  match e with
  | ErrNotMultipart => "request Content-Type isn't multipart/form-data"
  | ErrText msg => msg
  end.

Definition is_ErrNotMultipart (e : error) : bool :=
  match e with ErrNotMultipart => true | ErrText _ => false end.

(** ** The store: requests and body readers

    [*http.Request] and [io.ReadCloser] are references.  The caller of the
    logger keeps the request it logged, and [Fire] writes to it, so both
    kinds of object live in a store indexed by location. *)
Definition loc := nat.

(** An [io.ReadCloser]: the bytes it has yet to yield, and how the stream
    ends after them: with [io.EOF] ([None]) or with a read error.  Every
    reader ends; a stream without end, on which [io.ReadAll] does not
    return, is not represented. *)
Record Reader := mkReader {
  pending : string;
  fault : option error
}.

(** [multipart.FileHeader], as far as [hook.go] reads it. *)
Record FileHeader := mkFileHeader {
  Filename : string;
  Size : Z
}.

(** [multipart.Form]: [map[string][]string] and
    [map[string][]*FileHeader]. *)
Record Form := mkForm {
  Value : gmap string (list string);
  File : gmap string (list FileHeader)
}.

(** [http.Request], as far as [hook.go] reads and writes it.  [r.URL] is
    a pointer: [r_URL] is [None] when it is nil (a request built as a
    struct literal; [Clone] keeps it nil) and otherwise holds the text
    [r.URL.String()] returns.  [r_Body] is [None] for a nil body. *)
Record httpRequest := mkRequest {
  r_Method : string;
  r_URL : option string;
  r_Header : gmap string (list string);
  r_Body : option loc;
  r_MultipartForm : option Form
}.

Definition set_Body (r : httpRequest) (b : option loc) : httpRequest :=
  {| r_Method := r_Method r; r_URL := r_URL r; r_Header := r_Header r;
     r_Body := b; r_MultipartForm := r_MultipartForm r |}.

Record World := mkWorld {
  requests : gmap loc httpRequest;
  readers : gmap loc Reader
}.

Definition set_requests (f : gmap loc httpRequest -> gmap loc httpRequest)
    (w : World) : World :=
  {| requests := f (requests w); readers := readers w |}.

Definition set_readers (f : gmap loc Reader -> gmap loc Reader)
    (w : World) : World :=
  {| requests := requests w; readers := f (readers w) |}.

(** [Header.Get(key)] for a key already in canonical form: the first value
    stored under it, or the empty string. *)
Definition Header_Get (h : gmap string (list string)) (key : string) : string :=
  match h !! key with
  | Some (v :: _) => v
  | _ => ""
  end.

(** [io.ReadAll(b)]: everything the reader still holds, the error that
    ended the stream if any, and the store in which [b] is drained.  A
    reader that failed keeps failing. *)
Definition io_ReadAll (b : loc) (w : World) : string * option error * World :=
  match readers w !! b with
  | Some rd =>
      (pending rd, fault rd,
       set_readers <[b := {| pending := ""; fault := fault rd |}]> w)
  | None => ("", None, w)
  end.

(** [io.NopCloser(bytes.NewBuffer(bs))]: a new reader over [bs].  Two
    buffers made from one slice share its backing array, but [hook.go]
    never writes to either, and each buffer has its own read offset: each
    is a reader of its own over the same bytes. *)
Definition new_buffer (bs : string) (w : World) : loc * World :=
  let b := fresh (dom (readers w)) in
  (b, set_readers <[b := {| pending := bs; fault := None |}]> w).

(** [r.Clone(ctx)]: a new request with copies of the URL, the header and
    the parsed form; the body is the same reader as the original's. *)
Definition Request_Clone (r : httpRequest) (w : World) : loc * World :=
  let r2 := fresh (dom (requests w)) in
  (r2, set_requests <[r2 := r]> w).

(** ** The hook's own types *)

Definition REQUEST_FIELD_KEY : string := "request".

Record LoggerHttpRequestPayload := mkPayload {
  Request : option loc;
  Method : string;
  URL : string;
  BodyString : string;
  Headers : string
}.

Record Hook := mkHook {
  HookUrl : string;
  lvl : list Level
}.

(** What an [interface{}] in [entry.Data] can hold, by dynamic type. *)
Inductive Any :=
| VPayload (p : LoggerHttpRequestPayload)
| VPayloadPtr (p : LoggerHttpRequestPayload)
| VError (msg : string)
| VString (s : string)
| VOther (type_name : string).

(** [logrus.Entry], as far as [hook.go] reads it; [Time] counts seconds. *)
Record Entry := mkEntry {
  Data : gmap string Any;
  Time : Z;
  EntryLevel : Level;
  Message : string
}.

(** ** NewHook and Levels *)

Definition NewHook (webhookURL : string) (levels : list Level) : Hook :=
  let lvl :=
    if (length levels =? 0)%nat
    then [PanicLevel; FatalLevel; ErrorLevel; WarnLevel]
    else levels in
  {| HookUrl := webhookURL; lvl := lvl |}.

Definition Levels (h : Hook) : list Level := lvl h.

(** ** Fire, synchronous half *)

(** Lines 96-127: the copy of [entry.Data["request"]] taken before [Fire]
    returns.  A request of the payload is cloned, and its body, if it has
    one, is read to the end and replaced, in the original and in the
    clone, by a buffer over what was read.  (A payload of a Go program
    points to a request or to nothing; a location with no request behind
    it is given no snapshot.) *)
Definition snapshot (entry : Entry) (w : World)
    : option LoggerHttpRequestPayload * World :=
  match Data entry !! REQUEST_FIELD_KEY with
  | Some (VPayload valReq) =>
      match Request valReq with
      | Some r =>
          match requests w !! r with
          | Some req =>
              let '(r2, w1) := Request_Clone req w in
              let drp := {| Request := Some r2; Method := ""; URL := "";
                            BodyString := ""; Headers := "" |} in
              match r_Body req with
              | Some b =>
                  let '(bodyBytes, _, w2) := io_ReadAll b w1 in
                  let '(b1, w3) := new_buffer bodyBytes w2 in
                  let w4 := set_requests <[r := set_Body req (Some b1)]> w3 in
                  let '(b2, w5) := new_buffer bodyBytes w4 in
                  let w6 := set_requests <[r2 := set_Body req (Some b2)]> w5 in
                  (Some drp, w6)
              | None => (Some drp, w1)
              end
          | None => (None, w)
          end
      | None =>
          (Some {| Request := None; Method := Method valReq;
                   URL := URL valReq; BodyString := BodyString valReq;
                   Headers := Headers valReq |}, w)
      end
  | _ => (None, w)
  end.

(** What the goroutine started by [Fire] captured. *)
Record Task := mkTask {
  task_hook : Hook;
  task_entry : Entry;
  task_drp : option LoggerHttpRequestPayload
}.

(** What [Fire] leaves behind: its return value, the store, and the
    goroutine it started, if any. *)
Record Fired := mkFired {
  returned : option error;
  world : World;
  spawned : option Task
}.

Definition Fire (h : Hook) (entry : Entry) (w : World) : Fired :=
  if String.eqb (HookUrl h) "" then
    {| returned := Some (ErrText "Discord webhook url is empty");
       world := w; spawned := None |}
  else
    let '(dataRequestPayload, w') := snapshot entry w in
    {| returned := None; world := w';
       spawned := Some {| task_hook := h; task_entry := entry;
                          task_drp := dataRequestPayload |} |}.

(** ** The Go runtime the goroutine calls into

    Behaviour that belongs to the standard library and that no statement
    below depends on, kept abstract. *)
Record Runtime := mkRuntime {
  (** how [encoding/json] writes a string literal: quotes and escapes *)
  json_quote : string -> string;
  (** [t.UTC().Format(time.RFC3339)] *)
  time_Format_RFC3339 : Z -> string;
  (** [fmt.Sprintf("%.2f KB", float64(size)/1024)] *)
  fmt_KB : Z -> string;
  (** [r.ParseMultipartForm(maxMemory)], given what [r.Body] yields ([None]
      for a nil body): the error returned and [r.MultipartForm] afterwards *)
  Request_ParseMultipartForm :
    Z -> httpRequest -> option string -> option error * option Form;
  (** the error of [http.NewRequest(method, url, body)], if any *)
  http_NewRequest : string -> string -> option error;
  (** the boundary [multipart.NewWriter] draws at random *)
  multipart_boundary : string
}.

(** ** JSON values and encoding/json

    The values [hook.go] hands to [json.Marshal]: strings, integers,
    slices and [map[string]any].  A map is written as the list of its
    entries; the encoder emits them in key order, as Go does. *)
Inductive JSON :=
| JString (s : string)
| JNumber (n : Z)
| JArray (vs : list JSON)
| JObject (kvs : list (string * JSON)).

Definition Z_to_string (n : Z) : string := NilZero.string_of_int (Z.to_int n).

Fixpoint join (sep : string) (l : list string) : string :=
  match l with
  | [] => ""
  | [x] => x
  | x :: l' => x +:+ sep +:+ join sep l'
  end.

Fixpoint insert_by_key (kv : string * string) (l : list (string * string))
    : list (string * string) :=
  match l with
  | [] => [kv]
  | kv' :: l' =>
      if String.leb (fst kv) (fst kv') then kv :: l
      else kv' :: insert_by_key kv l'
  end.

Definition sort_by_key (l : list (string * string)) : list (string * string) :=
  fold_right insert_by_key [] l.

Fixpoint repeat_string (s : string) (n : nat) : string :=
  match n with
  | O => ""
  | S n' => s +:+ repeat_string s n'
  end.

(** A line break followed by [depth] indentation steps of two blanks. *)
Definition newline (depth : nat) : string :=
  String (ascii_of_nat 10) (repeat_string "  " depth).

Section Encoding.
Context (go : Runtime).

Fixpoint marshal (v : JSON) : string :=
  match v with
  | JString s => json_quote go s
  | JNumber n => Z_to_string n
  | JArray vs => "[" +:+ join "," (List.map marshal vs) +:+ "]"
  | JObject kvs =>
      let members :=
        (fix each (l : list (string * JSON)) : list (string * string) :=
           match l with
           | [] => []
           | (k, x) :: l' => (k, marshal x) :: each l'
           end) kvs in
      "{" +:+ join ","
                (List.map (fun kv => json_quote go (fst kv) +:+ ":" +:+ snd kv)
                          (sort_by_key members))
          +:+ "}"
  end.

Fixpoint marshal_indent (depth : nat) (v : JSON) : string :=
  match v with
  | JString s => json_quote go s
  | JNumber n => Z_to_string n
  | JArray [] => "[]"
  | JArray vs =>
      "[" +:+ newline (S depth)
          +:+ join ("," +:+ newline (S depth))
                   (List.map (marshal_indent (S depth)) vs)
          +:+ newline depth +:+ "]"
  | JObject [] => "{}"
  | JObject kvs =>
      let members :=
        (fix each (l : list (string * JSON)) : list (string * string) :=
           match l with
           | [] => []
           | (k, x) :: l' => (k, marshal_indent (S depth) x) :: each l'
           end) kvs in
      "{" +:+ newline (S depth)
          +:+ join ("," +:+ newline (S depth))
                   (List.map (fun kv => json_quote go (fst kv) +:+ ": " +:+ snd kv)
                             (sort_by_key members))
          +:+ newline depth +:+ "}"
  end.

(** [json.Marshal(v)].  The encoder fails on channels, functions, cycles
    and non-finite floats only; a [JSON] holds none of them. *)
Definition json_Marshal (v : JSON) : string * option error :=
  (marshal v, None).

(** [json.MarshalIndent(v, "", "  ")]. *)
Definition json_MarshalIndent (v : JSON) : string * option error :=
  (marshal_indent 0 v, None).
End Encoding.

(** ** net/url: ParseQuery *)

Definition is_hex (c : ascii) : bool :=
  let n := nat_of_ascii c in
  ((48 <=? n) && (n <=? 57) || (97 <=? n) && (n <=? 102)
   || (65 <=? n) && (n <=? 70))%nat.

Definition unhex (c : ascii) : nat :=
  let n := nat_of_ascii c in
  if ((48 <=? n) && (n <=? 57))%nat then n - 48
  else if ((97 <=? n) && (n <=? 102))%nat then n - 97 + 10
  else if ((65 <=? n) && (n <=? 70))%nat then n - 65 + 10
  else 0.

(** [url.QueryUnescape]: [%XX] becomes the byte [XX], [+] a blank; a [%]
    not followed by two hex digits is an error (whose text, an
    [EscapeError], is abbreviated here). *)
Fixpoint url_QueryUnescape (s : string) : string * option error :=
  match s with
  | EmptyString => ("", None)
  | String "%" (String a (String b rest)) =>
      if is_hex a && is_hex b then
        let '(t, err) := url_QueryUnescape rest in
        (String (ascii_of_nat (16 * unhex a + unhex b)) t, err)
      else ("", Some (ErrText "invalid URL escape"))
  | String "%" _ => ("", Some (ErrText "invalid URL escape"))
  | String "+" rest =>
      let '(t, err) := url_QueryUnescape rest in (String " " t, err)
  | String c rest =>
      let '(t, err) := url_QueryUnescape rest in (String c t, err)
  end.

(** [strings.Cut(s, sep)] for a one-byte separator. *)
Fixpoint strings_Cut (s : string) (sep : ascii) : string * string * bool :=
  match s with
  | EmptyString => ("", "", false)
  | String c s' =>
      if Ascii.eqb c sep then ("", s', true)
      else let '(before, after, found) := strings_Cut s' sep in
           (String c before, after, found)
  end.

(** The pieces of [s] between occurrences of [sep]: what repeated
    [strings.Cut] peels off, in order. *)
Fixpoint pieces (s : string) (sep : ascii) : list string :=
  match s with
  | EmptyString => [""]
  | String c s' =>
      if Ascii.eqb c sep then "" :: pieces s' sep
      else match pieces s' sep with
           | [] => [String c ""]
           | p :: ps => String c p :: ps
           end
  end.

(** One round of the loop of [parseQuery]. *)
Definition parseQuery_step (st : gmap string (list string) * option error)
    (key : string) : gmap string (list string) * option error :=
  let '(m, err) := st in
  if strings_Contains key ";" then
    (m, Some (ErrText "invalid semicolon separator in query"))
  else if String.eqb key "" then (m, err)
  else
    let '(key, value, _) := strings_Cut key "=" in
    let '(key, err1) := url_QueryUnescape key in
    match err1 with
    | Some e1 => (m, if err is None then Some e1 else err)
    | None =>
        let '(value, err1) := url_QueryUnescape value in
        match err1 with
        | Some e1 => (m, if err is None then Some e1 else err)
        | None => (<[key := (default [] (m !! key) ++ [value])%list]> m, err)
        end
    end.

(** [url.ParseQuery(query)]: the values parsed, and the first error met. *)
Definition url_ParseQuery (query : string)
    : gmap string (list string) * option error :=
  fold_left parseQuery_step (pieces query "&") (∅, None).

(** ** Fire, asynchronous half: the goroutine *)

(** How a run of the goroutine ends. *)
Inductive result (A : Type) :=
| Ok (a : A)
| Panic (why : string).
Arguments Ok {A} a.
Arguments Panic {A} why.

Definition bind {A B : Type} (x : result A) (f : A -> result B) : result B :=
  match x with
  | Ok a => f a
  | Panic why => Panic why
  end.

Notation "x <- e1 ;; e2" := (bind e1 (fun x => e2))
  (at level 100, e1 at next level, right associativity).

Fixpoint mapM {A B : Type} (f : A -> result B) (l : list A) : result (list B) :=
  match l with
  | [] => Ok []
  | a :: l' => b <- f a ;; bs <- mapM f l' ;; Ok (b :: bs)
  end.

Definition nil_dereference : string :=
  "invalid memory address or nil pointer dereference".
Definition index_out_of_range : string := "index out of range [0] with length 0".

(** [map[string]any{"name": n, "value": v}]. *)
Definition field (n v : string) : JSON :=
  JObject [("name", JString n); ("value", JString v)].

Definition strings_json (l : list string) : JSON := JArray (List.map JString l).

(** One part of a multipart body, as [multipart.Writer] is asked for it. *)
Inductive Part :=
| FormField (fieldname : string) (content : string)
| FormFile (fieldname filename : string) (content : string).

(** The body of the outgoing request: bytes, or the parts a
    [multipart.Writer] lays out between its boundary lines. *)
Inductive PostBody :=
| Bytes (b : string)
| Multipart (boundary : string) (parts : list Part).

(** The request given to [client.Do]. *)
Record Post := mkPost {
  post_method : string;
  post_url : string;
  post_content_type : string;
  post_body : PostBody
}.

(** How the goroutine ends: it gave a request to [client.Do] (what it
    prints about the response is not modelled), it printed a diagnostic
    and returned without posting, or it panicked. *)
Inductive Outcome :=
| Posted (p : Post)
| Aborted (diagnostic : string)
| Crashed (why : string).

Section Goroutine.
Context (go : Runtime).

(** Lines 131-137. *)
Definition errorMessage (entry : Entry) : string :=
  match Data entry !! "error" with
  | Some (VError msg) => msg
  | Some (VString s) => s
  | _ => ""
  end.

(** Lines 139-147. *)
Definition embedCollor (level : Level) : Z :=
  if (level =? PanicLevel)%N || (level =? FatalLevel)%N
     || (level =? ErrorLevel)%N then 16725591
  else if (level =? WarnLevel)%N then 16760630
  else 12434877.

(** Lines 195-201: one entry of [formData]. *)
Definition form_value (kv : string * list string) : result (string * JSON) :=
  let '(key, values) := kv in
  if (1 <? length values)%nat then Ok (key, strings_json values)
  else match values with
       | v :: _ => Ok (key, JString v)
       | [] => Panic index_out_of_range
       end.

(** Lines 206-225: one entry of [fileInfo]. *)
Definition file_info (kv : string * list FileHeader) : result (string * JSON) :=
  let '(key, files) := kv in
  if (1 <? length files)%nat then
    let fileNames := List.map Filename files in
    let fileSize := List.map (fun fh => fmt_KB go (Size fh)) files in
    Ok (key, JObject [("nama", strings_json fileNames);
                      ("ukuran", strings_json fileSize)])
  else match files with
       | fh :: _ =>
           Ok (key, JObject [("nama", JString (Filename fh));
                             ("ukuran", JString (fmt_KB go (Size fh)))])
       | [] => Panic index_out_of_range
       end.

(** Lines 194-242: the summary of a parsed multipart form.  The form is
    reached through [drp.Request.MultipartForm], which may be nil. *)
Definition multipart_summary (mf : option Form) : result (list JSON) :=
  match mf with
  | None => Panic nil_dereference
  | Some form =>
      formData <- mapM form_value (map_to_list (Value form)) ;;
      fileInfo <- mapM file_info (map_to_list (File form)) ;;
      let combinedData :=
        ((if (0 <? length formData)%nat
          then [("form_fields", JObject formData)] else [])
         ++ (if (0 <? length fileInfo)%nat
             then [("uploaded_files", JObject fileInfo)] else []))%list in
      let '(jsonString, err) := json_MarshalIndent go (JObject combinedData) in
      match err with
      | None => Ok [field "Body" (fence jsonString)]
      | Some _ => Ok []
      end
  end.

(** Lines 175-280: the switch on the content type.  [req] is the request
    of the snapshot and [body] what its reader yielded ([None] for a nil
    body, in which case [bodyBytes] is empty). *)
Definition body_fields (req : httpRequest) (body : option string)
    : result (list JSON) :=
  let bodyBytes := default "" body in
  let contentType := Header_Get (r_Header req) "Content-Type" in
  if strings_Contains contentType "application/json" then
    Ok [field "Body" (fence_sp bodyBytes)]
  else if strings_Contains contentType "multipart/form-data" then
    let maxMemory := Z.shiftl 32 20 in
    let '(err, multipartForm) :=
      Request_ParseMultipartForm go maxMemory req body in
    match err with
    | Some e =>
        if negb (is_ErrNotMultipart e)
        then Ok [field "Body" (fence (Error e))]
        else multipart_summary multipartForm
    | None => multipart_summary multipartForm
    end
  else if strings_Contains contentType "application/x-www-form-urlencoded" then
    if (0 <? String.length bodyBytes)%nat then
      let '(parsedForm, err) := url_ParseQuery bodyBytes in
      match err with
      | Some _ => Ok [field "Body" (fence_sp bodyBytes)]
      | None =>
          let formData :=
            List.map (fun kv => (fst kv, strings_json (snd kv)))
                     (map_to_list parsedForm) in
          let '(jsonString, err) := json_MarshalIndent go (JObject formData) in
          match err with
          | None => Ok [field "Body" (fence jsonString)]
          | Some _ => Ok []
          end
      end
    else Ok []
  else
    let maxRawBodyLogSize := 1024%nat in
    if (0 <? String.length bodyBytes)%nat then
      if (String.length bodyBytes <=? maxRawBodyLogSize)%nat
      then Ok [field "Body" (fence_sp bodyBytes)]
      else Ok []
    else Ok [].

(** Lines 166-173: the goroutine reads the body of its request to the
    end and puts a buffer over the bytes in its place. *)
Definition read_body (req : httpRequest) (r : loc) (w : World)
    : option string * httpRequest * World :=
  match r_Body req with
  | Some b =>
      let '(bodyBytes, _, w1) := io_ReadAll b w in
      let '(b', w2) := new_buffer bodyBytes w1 in
      let req' := set_Body req (Some b') in
      (Some bodyBytes, req', set_requests <[r := req']> w2)
  | None => (None, req, w)
  end.

(** Lines 150-307: the fields of the "REQUEST PAYLOAD" embed.  A
    location with no request behind it cannot be dereferenced, and line
    162 calls [String()] on the URL of the request before the body is
    read: on a nil URL the goroutine panics there. *)
Definition payload_fields (drp : option LoggerHttpRequestPayload) (w : World)
    : result (list JSON) :=
  match drp with
  | None => Ok []
  | Some drp =>
      match Request drp with
      | Some r =>
          match requests w !! r with
          | None => Panic nil_dereference
          | Some req =>
              match r_URL req with
              | None => Panic nil_dereference
              | Some url =>
                  let fields :=
                    [field "Method" (fence_sp (r_Method req));
                     field "URL" (fence_sp url)] in
                  let '(body, req', _) := read_body req r w in
                  more <- body_fields req' body ;;
                  Ok (fields ++ more)%list
              end
          end
      | None =>
          Ok ((if negb (String.eqb (Method drp) "")
               then [field "Method" (fence_sp (Method drp))] else [])
              ++ (if negb (String.eqb (URL drp) "")
                  then [field "URL" (fence_sp (URL drp))] else [])
              ++ (if negb (String.eqb (BodyString drp) "")
                  then [field "Body" (fence_sp (BodyString drp))] else [])
              ++ (if negb (String.eqb (Headers drp) "")
                  then [field "Headers" (fence_sp (Headers drp))] else []))%list
      end
  end.

Definition maxMessageLength : nat := 500.

(** Line 312. *)
Definition sendAsFile (entry : Entry) : bool :=
  (maxMessageLength <? String.length (Message entry))%nat.

(** The third embed, lines 329-333. *)
Definition message_embed (entry : Entry) : JSON :=
  JObject [("title", JString "MESSAGE");
           ("description", JString (fence_sp (Message entry)));
           ("color", JNumber (embedCollor (EntryLevel entry)))].

(** Lines 314-334. *)
Definition embeds (entry : Entry) (fields : list JSON) : list JSON :=
  ([JObject [("title", JString (strings_ToUpper (Level_String (EntryLevel entry))));
             ("description", JString (errorMessage entry));
             ("timestamp", JString (time_Format_RFC3339 go (Time entry)));
             ("color", JNumber (embedCollor (EntryLevel entry)))];
    JObject [("title", JString "REQUEST PAYLOAD");
             ("fields", JArray fields);
             ("color", JNumber (embedCollor (EntryLevel entry)))]]
   ++ (if negb (sendAsFile entry) then [message_embed entry] else []))%list.

(** The value given to [json.Marshal] at line 336. *)
Definition document (entry : Entry) (fields : list JSON) : JSON :=
  JObject [("username", JString "Golang");
           ("embeds", JArray (embeds entry fields))].

(** Lines 129-416.  The multipart writer writes to a buffer in memory,
    where [CreateFormField] and [CreateFormFile] do not fail; their error
    branches are left out. *)
Definition deliver (h : Hook) (entry : Entry)
    (drp : option LoggerHttpRequestPayload) (w : World) : Outcome :=
  match payload_fields drp w with
  | Panic why => Crashed why
  | Ok fields =>
      let messageToSend := Message entry in
      let '(payload, err) := json_Marshal go (document entry fields) in
      match err with
      | Some e => Aborted ("Failed to marshal Discord webhook payload: " +:+ Error e)
      | None =>
          if sendAsFile entry then
            let parts := [FormField "payload_json" payload;
                          FormFile "files[0]" "log.txt" messageToSend] in
            match http_NewRequest go "POST" (HookUrl h) with
            | Some e => Aborted (Error e)
            | None =>
                Posted {| post_method := "POST"; post_url := HookUrl h;
                          post_content_type :=
                            "multipart/form-data; boundary=" +:+ multipart_boundary go;
                          post_body := Multipart (multipart_boundary go) parts |}
            end
          else
            match http_NewRequest go "POST" (HookUrl h) with
            | Some _ => Crashed nil_dereference
            | None =>
                Posted {| post_method := "POST"; post_url := HookUrl h;
                          post_content_type := "application/json";
                          post_body := Bytes payload |}
            end
      end
  end.

(** The goroutine, run on a store. *)
Definition run (t : Task) (w : World) : Outcome :=
  deliver (task_hook t) (task_entry t) (task_drp t) w.
End Goroutine.

(** ** A reference runtime

    One [Runtime], following the Go standard library (1.22 and later), on
    which the model runs on concrete entries.  The statements about
    [hook.go] below hold for every runtime; this one instantiates them. *)
Module GoRef.

Definition dquote : string := String (ascii_of_nat 34) "".

Definition hex_digit (n : nat) : string :=
  String.substring n 1 "0123456789abcdef".

(** [encoding/json] on a byte below 0x80, with HTML escaping on. *)
Definition escape_ascii (c : ascii) : string :=
  let n := nat_of_ascii c in
  if ((n =? 34) || (n =? 92))%nat then String "\" (String c "")
  else if (n =? 8)%nat then "\b"
  else if (n =? 12)%nat then "\f"
  else if (n =? 10)%nat then "\n"
  else if (n =? 13)%nat then "\r"
  else if (n =? 9)%nat then "\t"
  else if ((n <? 32) || (n =? 38) || (n =? 60) || (n =? 62))%nat
  then "\u00" +:+ hex_digit (n / 16) +:+ hex_digit (n mod 16)
  else String c "".

Definition between (lo hi : nat) (c : ascii) : bool :=
  ((lo <=? nat_of_ascii c) && (nat_of_ascii c <=? hi))%nat.

Definition continuation : ascii -> bool := between 128 191.

(** The well-formed UTF-8 sequences of two, three and four bytes. *)
Definition two_bytes (c c1 : ascii) : bool :=
  between 194 223 c && continuation c1.

Definition three_bytes (c c1 c2 : ascii) : bool :=
  (between 224 224 c && between 160 191 c1
   || (between 225 236 c || between 238 239 c) && continuation c1
   || between 237 237 c && between 128 159 c1)
  && continuation c2.

Definition four_bytes (c c1 c2 c3 : ascii) : bool :=
  (between 240 240 c && between 144 191 c1
   || between 241 243 c && continuation c1
   || between 244 244 c && between 128 143 c1)
  && continuation c2 && continuation c3.

(** U+2028 and U+2029, which the encoder escapes. *)
Definition line_separator (c c1 c2 : ascii) : bool :=
  between 226 226 c && between 128 128 c1 && between 168 169 c2.

Definition replacement : string := "\ufffd".

Fixpoint quote_bytes (s : string) : string :=
  match s with
  | EmptyString => ""
  | String c rest =>
      if (nat_of_ascii c <? 128)%nat then escape_ascii c +:+ quote_bytes rest
      else
        match rest with
        | EmptyString => replacement
        | String c1 rest1 =>
            if two_bytes c c1 then String c (String c1 (quote_bytes rest1))
            else
              match rest1 with
              | EmptyString => replacement +:+ quote_bytes rest
              | String c2 rest2 =>
                  if line_separator c c1 c2 then
                    "\u202" +:+ hex_digit (nat_of_ascii c2 mod 16)
                            +:+ quote_bytes rest2
                  else if three_bytes c c1 c2 then
                    String c (String c1 (String c2 (quote_bytes rest2)))
                  else
                    match rest2 with
                    | EmptyString => replacement +:+ quote_bytes rest
                    | String c3 rest3 =>
                        if four_bytes c c1 c2 c3 then
                          String c (String c1 (String c2 (String c3
                            (quote_bytes rest3))))
                        else replacement +:+ quote_bytes rest
                    end
              end
        end
  end.

Definition quote (s : string) : string := dquote +:+ quote_bytes s +:+ dquote.

Definition pad2 (n : Z) : string :=
  (if (n <? 10)%Z then "0" else "") +:+ Z_to_string n.

Definition pad4 (n : Z) : string :=
  (if (n <? 10)%Z then "000" else if (n <? 100)%Z then "00"
   else if (n <? 1000)%Z then "0" else "") +:+ Z_to_string n.

(** The civil date of a day count from 1970-01-01. *)
Definition civil_from_days (days : Z) : Z * Z * Z :=
  let z := (days + 719468)%Z in
  let era := (z / 146097)%Z in
  let doe := (z - era * 146097)%Z in
  let yoe := ((doe - doe / 1460 + doe / 36524 - doe / 146096) / 365)%Z in
  let doy := (doe - (365 * yoe + yoe / 4 - yoe / 100))%Z in
  let mp := ((5 * doy + 2) / 153)%Z in
  let d := (doy - (153 * mp + 2) / 5 + 1)%Z in
  let m := (if (mp <? 10)%Z then mp + 3 else mp - 9)%Z in
  let y := (yoe + era * 400 + (if (m <=? 2)%Z then 1 else 0))%Z in
  (y, m, d).

(** [time.RFC3339] in UTC, for the years 0 to 9999. *)
Definition format_RFC3339 (unix : Z) : string :=
  let '(y, m, d) := civil_from_days (unix / 86400) in
  let s := (unix mod 86400)%Z in
  pad4 y +:+ "-" +:+ pad2 m +:+ "-" +:+ pad2 d +:+ "T"
    +:+ pad2 (s / 3600) +:+ ":" +:+ pad2 (s mod 3600 / 60) +:+ ":"
    +:+ pad2 (s mod 60) +:+ "Z".

(** ["%.2f KB"] of [size/1024].  The quotient is exact in a [float64] for
    sizes below 2^53, and the decimal conversion rounds halves to even. *)
Definition format_KB (size : Z) : string :=
  let q := (size * 100 / 1024)%Z in
  let r := (size * 100 mod 1024)%Z in
  let h := (if (512 <? r)%Z || (r =? 512)%Z && Z.odd q then q + 1 else q)%Z in
  Z_to_string (h / 100) +:+ "." +:+ pad2 (h mod 100) +:+ " KB".

Definition is_space (c : ascii) : bool :=
  let n := nat_of_ascii c in
  ((n =? 32) || (9 <=? n) && (n <=? 13))%nat.

Fixpoint trim_left (s : string) : string :=
  match s with
  | String c s' => if is_space c then trim_left s' else s
  | EmptyString => ""
  end.

Fixpoint trim_right (s : string) : string :=
  match s with
  | EmptyString => ""
  | String c s' =>
      match trim_right s' with
      | EmptyString => if is_space c then "" else String c ""
      | t => String c t
      end
  end.

Definition strings_TrimSpace (s : string) : string := trim_right (trim_left s).

Definition lower_byte (c : ascii) : ascii :=
  let n := nat_of_ascii c in
  if (65 <=? n)%nat && (n <=? 90)%nat then ascii_of_nat (n + 32) else c.

Fixpoint strings_ToLower (s : string) : string :=
  match s with
  | EmptyString => EmptyString
  | String c s' => String (lower_byte c) (strings_ToLower s')
  end.

(** [mime]'s token bytes: printable ASCII but the separators. *)
Definition is_token_byte (c : ascii) : bool :=
  let n := nat_of_ascii c in
  ((32 <? n) && (n <? 127))%nat
  && negb (existsb (Ascii.eqb c)
             (list_ascii_of_string ("()<>@,;:\/[]?=" +:+ dquote))).

Definition is_token (s : string) : bool :=
  negb (String.eqb s "") && forallb is_token_byte (list_ascii_of_string s).

(** The media type [mime.ParseMediaType] reports: the text before the
    first [;], trimmed and in lower case. *)
Definition media_type (v : string) : string :=
  strings_TrimSpace (strings_ToLower (fst (fst (strings_Cut v ";")))).

(** [checkMediaTypeDisposition]: a token, or two with a slash between. *)
Definition well_formed_type (mediatype : string) : bool :=
  let '(typ, subtype, slash) := strings_Cut mediatype "/" in
  is_token typ && (negb slash || is_token subtype).

(** A value between double quotes, without escapes. *)
Definition unquoted (value : string) : option string :=
  match value with
  | String c rest =>
      if Ascii.eqb c (ascii_of_nat 34) then
        let '(inner, after, closed) := strings_Cut rest (ascii_of_nat 34) in
        if closed && String.eqb after "" && negb (strings_Contains inner "\")
        then Some inner else None
      else None
  | EmptyString => None
  end.

(** One parameter, written [name=token] or [name="text"]; [None] stands
    for [mime.ErrInvalidMediaParameter]. *)
Definition media_param (p : string) : option (string * string) :=
  let '(name, value, found) := strings_Cut (strings_TrimSpace p) "=" in
  let name := strings_TrimSpace name in
  let value := strings_TrimSpace value in
  if found && is_token name then
    if is_token value then Some (strings_ToLower name, value)
    else match unquoted value with
         | Some inner => Some (strings_ToLower name, inner)
         | None => None
         end
  else None.

(** The parameters after the media type, one per [;]; a closing [;] with
    nothing after it is let through, a name given twice is an error. *)
Fixpoint media_params (ps : list string) : option (gmap string string) :=
  match ps with
  | [] => Some ∅
  | p :: ps' =>
      if String.eqb (strings_TrimSpace p) "" && (length ps' =? 0)%nat then Some ∅
      else
        match media_param p, media_params ps' with
        | Some (name, value), Some m =>
            match m !! name with
            | None => Some (<[name := value]> m)
            | Some _ => None
            end
        | _, _ => None
        end
  end.

(** [mime.ParseMediaType], within the limits above; [None] stands for
    its error. *)
Definition mime_ParseMediaType (v : string) : option (string * gmap string string) :=
  match pieces v ";" with
  | [] => None
  | _ :: ps =>
      if well_formed_type (media_type v) then
        match media_params ps with
        | Some params => Some (media_type v, params)
        | None => None
        end
      else None
  end.

Section Parts.
(** [multipart.Reader.ReadForm], from the boundary, the body and the
    memory budget. *)
Context (ReadForm : string -> string -> Z -> Form + error).

(** [Request.ParseMultipartForm] and the [multipartReader] under it.  A
    form parsed before is kept; the error of [r.ParseForm], which is
    returned after the parts have been read, is not reproduced. *)
Definition ParseMultipartForm (maxMemory : Z) (r : httpRequest)
    (body : option string) : option error * option Form :=
  match r_MultipartForm r with
  | Some f => (None, Some f)
  | None =>
      let v := Header_Get (r_Header r) "Content-Type" in
      if String.eqb v "" then (Some ErrNotMultipart, None)
      else
        match body with
        | None => (Some (ErrText "missing form body"), None)
        | Some bytes =>
            match mime_ParseMediaType v with
            | None => (Some ErrNotMultipart, None)
            | Some (d, params) =>
                if negb (String.eqb d "multipart/form-data")
                then (Some ErrNotMultipart, None)
                else
                  match params !! "boundary" with
                  | None =>
                      (Some (ErrText "no multipart boundary param in Content-Type"),
                       None)
                  | Some boundary =>
                      match ReadForm boundary bytes maxMemory with
                      | inl f => (None, Some f)
                      | inr e => (Some e, None)
                      end
                  end
            end
        end
  end.

Definition has_control_byte (s : string) : bool :=
  existsb (fun c => (nat_of_ascii c <? 32)%nat || (nat_of_ascii c =? 127)%nat)
          (list_ascii_of_string s).

(** [http.NewRequest] rejects a URL that [url.Parse] rejects.  Of the
    reasons [url.Parse] has, the one reproduced is a control byte: this
    function rejects no URL that Go accepts, and accepts some that Go
    rejects (a broken escape, a missing scheme); it is run below on URLs
    on which the two agree. *)
Definition NewRequest (method url : string) : option error :=
  if has_control_byte url
  then Some (ErrText ("parse " +:+ quote url
                      +:+ ": net/url: invalid control character in URL"))
  else None.

Definition runtime : Runtime :=
  {| json_quote := quote;
     time_Format_RFC3339 := format_RFC3339;
     fmt_KB := format_KB;
     Request_ParseMultipartForm := ParseMultipartForm;
     http_NewRequest := NewRequest;
     multipart_boundary :=
       "3c2b8f0e6a1d4f7b9c5e2a8d0b6f4c1e7a3d9b5f2c8e0a6d4b1f7c3e9a5d" |}.
End Parts.

(** The answer of [ReadForm] on a body that ends before any boundary
    line. *)
Definition no_parts (boundary body : string) (maxMemory : Z) : Form + error :=
  inr (ErrText "multipart: NextPart: EOF").

End GoRef.

(** ** What the statements talk about *)

(** Reading [b] to the end in [w] yields exactly [bs], and no error. *)
Definition yields (w : World) (b : loc) (bs : string) : Prop :=
  fst (io_ReadAll b w) = (bs, None).

(** The bytes the body of [req] still holds in [w]. *)
Definition body_bytes (w : World) (req : httpRequest) : string :=
  match r_Body req with
  | Some b => match readers w !! b with
              | Some rd => pending rd
              | None => ""
              end
  | None => ""
  end.

(** An embed colour is the integer 0xRRGGBB; its three channels. *)
Definition red_channel (c : Z) : Z := Z.land (Z.shiftr c 16) 255.
Definition green_channel (c : Z) : Z := Z.land (Z.shiftr c 8) 255.
Definition blue_channel (c : Z) : Z := Z.land c 255.

(** A channel is strong in a colour when it lies above the middle between
    the weakest and the strongest of the three. *)
Definition strong (c channel : Z) : Prop :=
  let '(r, g, b) := (red_channel c, green_channel c, blue_channel c) in
  (Z.max r (Z.max g b) + Z.min r (Z.min g b) < 2 * channel)%Z.

(** The colour families the specification names, by their strong
    channels: red alone in a red; red and green, not blue, in a yellow;
    blue and not red in a blue (with a strong green it is a light or a
    greenish blue).  A grey has three equal channels, none of them
    strong. *)
Definition red_family (c : Z) : Prop :=
  strong c (red_channel c) /\ ~ strong c (green_channel c)
  /\ ~ strong c (blue_channel c).

Definition yellow_family (c : Z) : Prop :=
  strong c (red_channel c) /\ strong c (green_channel c)
  /\ ~ strong c (blue_channel c).

Definition blue_family (c : Z) : Prop :=
  strong c (blue_channel c) /\ ~ strong c (red_channel c).

Definition grey (c : Z) : Prop :=
  red_channel c = green_channel c /\ green_channel c = blue_channel c.

(** The member [k] of a JSON object. *)
Definition member (k : string) (v : JSON) : option JSON :=
  match v with
  | JObject kvs => snd <$> List.find (fun kv => String.eqb (fst kv) k) kvs
  | _ => None
  end.

Definition titled (t : string) (embed : JSON) : bool :=
  match member "title" embed with
  | Some (JString s) => String.eqb s t
  | _ => false
  end.

(** The serialized document a request carries: its body, or the content
    of its [payload_json] field. *)
Definition payload_json (p : Post) : list string :=
  match post_body p with
  | Bytes b => [b]
  | Multipart _ parts =>
      flat_map (fun part => match part with
                            | FormField "payload_json" content => [content]
                            | _ => []
                            end) parts
  end.

(** The files a request carries: field name, file name and content. *)
Definition attachments (p : Post) : list (string * string * string) :=
  match post_body p with
  | Bytes _ => []
  | Multipart _ parts =>
      flat_map (fun part => match part with
                            | FormFile fieldname filename content =>
                                [(fieldname, filename, content)]
                            | _ => []
                            end) parts
  end.

(** What lines 195-201 keep of the values of one key: the value, or the
    list of values when there are several. *)
Definition value_summary (values : list string) : JSON :=
  if (1 <? length values)%nat then strings_json values
  else JString (hd "" values).

(** What lines 206-225 keep of the files of one key: name and size in KB,
    or the list of names and the list of sizes when there are several. *)
Definition file_summary (go : Runtime) (files : list FileHeader) : JSON :=
  if (1 <? length files)%nat then
    JObject [("nama", strings_json (List.map Filename files));
             ("ukuran", strings_json (List.map (fun fh => fmt_KB go (Size fh)) files))]
  else
    JObject [("nama", JString (Filename (hd (mkFileHeader "" 0) files)));
             ("ukuran", JString (fmt_KB go (Size (hd (mkFileHeader "" 0) files))))].

(** The value a parsed multipart form is rendered from: its fields under
    "form_fields", its files under "uploaded_files", either left out when
    the form has none. *)
Definition form_summary (go : Runtime) (form : Form) : JSON :=
  JObject
    ((if decide (Value form = ∅) then []
      else [("form_fields",
             JObject (List.map (fun kv => (fst kv, value_summary (snd kv)))
                               (map_to_list (Value form))))])
     ++ (if decide (File form = ∅) then []
         else [("uploaded_files",
                JObject (List.map (fun kv => (fst kv, file_summary go (snd kv)))
                                  (map_to_list (File form))))]))%list.

(** Every key of the form has a value, respectively a file, as in every
    form the multipart reader builds. *)
Definition populated (form : Form) : Prop :=
  (forall key values, Value form !! key = Some values -> values <> [])
  /\ (forall key files, File form !! key = Some files -> files <> []).

Definition populatedb (form : Form) : bool :=
  forallb (fun kv => (0 <? length (snd kv))%nat) (map_to_list (Value form))
  && forallb (fun kv => (0 <? length (snd kv))%nat) (map_to_list (File form)).

(** What [ParseMultipartForm] answers the goroutine that renders the
    request [req], at location [r] of [w], when called with the budget
    [maxMemory]. *)
Definition parse_answer (go : Runtime) (maxMemory : Z) (w : World) (r : loc)
    (req : httpRequest) : option error * option Form :=
  Request_ParseMultipartForm go maxMemory
    (snd (fst (read_body req r w))) (fst (fst (read_body req r w))).

(** ** Sample hooks, entries and stores

    The concrete data the statements below are run on. *)
Module Samples.

Definition rt : Runtime := GoRef.runtime GoRef.no_parts.

Definition hook : Hook := NewHook "https://discord.com/api/webhooks/1/token" [].
Definition hook_no_url : Hook := NewHook "" [].

Definition request_with (contentType : string) (form : option Form) : httpRequest :=
  {| r_Method := "POST"; r_URL := Some "/users";
     r_Header := {[ "Content-Type" := [contentType] ]};
     r_Body := Some 0; r_MultipartForm := form |}.

(** A store with one request, at location 0, whose body, the reader at
    location 0, holds [body] and ends as [fault] says. *)
Definition store (req : httpRequest) (body : string) (fault : option error) : World :=
  {| requests := {[ 0 := req ]};
     readers := {[ 0 := {| pending := body; fault := fault |} ]} |}.

(** An Error entry that carries the request at location 0. *)
Definition entry_with_request (message : string) : Entry :=
  {| Data := {[ REQUEST_FIELD_KEY :=
                  VPayload (mkPayload (Some 0) "" "" "" "") ]};
     Time := 1762128000; EntryLevel := ErrorLevel; Message := message |}.

(** An entry whose "request" value is of another type, and one without. *)
Definition entry_with (v : Any) : Entry :=
  {| Data := {[ REQUEST_FIELD_KEY := v ]};
     Time := 1762128000; EntryLevel := WarnLevel; Message := "slow query" |}.

Definition entry_plain (message : string) : Entry :=
  {| Data := ∅; Time := 1762128000; EntryLevel := ErrorLevel;
     Message := message |}.

Definition empty_store : World := {| requests := ∅; readers := ∅ |}.

(** The snapshot [Fire] takes of the request at location 0 of [store]: the
    clone is at location 1, and reads its body from the reader at 2. *)
Definition snapshot_payload : LoggerHttpRequestPayload :=
  mkPayload (Some 1) "" "" "" "".

Definition text_request : httpRequest := request_with "text/plain" None.
Definition form_request : httpRequest :=
  request_with "application/x-www-form-urlencoded" None.
Definition both_request : httpRequest :=
  request_with "application/x-www-form-urlencoded, application/json" None.

(** [multipart/form-data] without a boundary, as in the README. *)
Definition upload_request : httpRequest := request_with "multipart/form-data" None.

(** A request whose form the handler has parsed before it logs. *)
Definition parsed_form : Form :=
  {| Value := {[ "name" := ["John"]; "tag" := ["a"; "b"] ]};
     File := {[ "avatar" := [mkFileHeader "me.png" 1536] ]} |}.
Definition parsed_request : httpRequest :=
  request_with "multipart/form-data; boundary=xyz" (Some parsed_form).

(** A content type that names multipart/form-data without being it, and
    one whose boundary parameter has no value. *)
Definition mistyped_request : httpRequest :=
  request_with "x-multipart/form-data" None.
Definition unbounded_request : httpRequest :=
  request_with "multipart/form-data; boundary=" None.

(** What [Fire] leaves when the hook is fired on an entry with the request
    [req], whose body holds [body] and ends as [fault] says. *)
Definition fired (req : httpRequest) (body : string) (fault : option error) : Fired :=
  Fire hook (entry_with_request "upload failed") (store req body fault).

(** Entries whose messages have 500 and 501 bytes. *)
Definition entry_500 : Entry := entry_plain (repeat_string "x" 500).
Definition entry_501 : Entry := entry_plain (repeat_string "x" 501).

End Samples.

(** ** More sample data *)
Module More.

(** A payload filled in by hand, without a request. *)
Definition manual_payload : LoggerHttpRequestPayload :=
  mkPayload None "POST" "https://api.example.com/users" "name=John" "".

Definition entry_manual : Entry :=
  {| Data := {[ REQUEST_FIELD_KEY := VPayload manual_payload ]};
     Time := 1762128000; EntryLevel := ErrorLevel;
     Message := "User creation failed" |}.

(** A GET request, which has no body, and a store that holds it beside
    another request with a body of its own. *)
Definition get_request : httpRequest :=
  {| r_Method := "GET"; r_URL := Some "/users/7";
     r_Header := ∅; r_Body := None; r_MultipartForm := None |}.

Definition get_store : World :=
  {| requests := {[ 0 := get_request; 5 := Samples.text_request ]};
     readers := {[ 0 := {| pending := "other"; fault := None |} ]} |}.

(** A store with the logged request at 0 and a bystander at 5, whose body
    is the reader at 7. *)
Definition busy_store : World :=
  {| requests := {[ 0 := Samples.text_request;
                    5 := set_Body Samples.form_request (Some 7) ]};
     readers := {[ 0 := {| pending := "ping"; fault := None |};
                   7 := {| pending := "a=1"; fault := None |} ]} |}.

(** A hook whose URL ends in a line feed, which [url.Parse] rejects. *)
Definition hook_bad_url : Hook :=
  NewHook ("https://discord.com/api/webhooks/1/token"
           +:+ String (ascii_of_nat 10) "") [].

(** A form in which the key "name" has lost its values. *)
Definition holed_form : Form :=
  {| Value := {[ "name" := []; "tag" := ["a"] ]}; File := ∅ |}.

(** An entry whose "error" value is neither an error nor a string. *)
Definition entry_odd_error : Entry :=
  {| Data := {[ "error" := VOther "int" ]};
     Time := 1762128000; EntryLevel := ErrorLevel; Message := "boom" |}.

Definition json_request : httpRequest :=
  Samples.request_with "application/json; charset=utf-8" None.

(** A request whose parsed form is [holed_form]. *)
Definition holed_request : httpRequest :=
  Samples.request_with "multipart/form-data; boundary=xyz" (Some holed_form).

(** A request built as a struct literal, [&http.Request{Method: "GET",
    Header: http.Header{}}]: its URL is nil.  A store that holds it. *)
Definition bare_request : httpRequest :=
  {| r_Method := "GET"; r_URL := None;
     r_Header := ∅; r_Body := None; r_MultipartForm := None |}.

Definition bare_store : World :=
  {| requests := {[ 0 := bare_request ]}; readers := ∅ |}.

(** An entry with a field of the application's own. *)
Definition entry_tagged : Entry :=
  {| Data := {[ "user_email" := VString "john@example.com" ]};
     Time := 1762128000; EntryLevel := ErrorLevel; Message := "boom" |}.

End More.

(** * Properties *)

(** ** NewHook and Levels *)

(** C5.  Without levels, [NewHook] subscribes to exactly Panic, Fatal,
    Error and Warn; with levels, to exactly the levels given, and the four
    defaults are not added. *)
Theorem NewHook_Levels (webhookURL : string) :
  Levels (NewHook webhookURL [])
    = [PanicLevel; FatalLevel; ErrorLevel; WarnLevel]
  /\ NoDup [PanicLevel; FatalLevel; ErrorLevel; WarnLevel]
  /\ forall (l : Level) (levels : list Level),
       Levels (NewHook webhookURL (l :: levels)) = l :: levels.
Proof.
  split; [reflexivity|]. split; [|reflexivity].
  repeat constructor; cbn; unfold PanicLevel, FatalLevel, ErrorLevel, WarnLevel;
    rewrite ?elem_of_cons, ?elem_of_nil; intuition discriminate.
Qed.

Lemma NewHook_HookUrl webhookURL levels :
  HookUrl (NewHook webhookURL levels) = webhookURL.
Proof. reflexivity. Qed.

(** ** The severity colours *)

(** C9, amended.  [embedCollor] is defined on every level: Panic, Fatal
    and Error give 16725591, a red; Warn gives 16760630, a yellow; and
    every other level gives 12434877, which is a grey. *)
Theorem embedCollor_total (level : Level) :
  embedCollor PanicLevel = 16725591%Z
  /\ embedCollor FatalLevel = 16725591%Z
  /\ embedCollor ErrorLevel = 16725591%Z
  /\ red_family 16725591
  /\ embedCollor WarnLevel = 16760630%Z
  /\ yellow_family 16760630
  /\ grey 12434877
  /\ (level <> PanicLevel -> level <> FatalLevel -> level <> ErrorLevel ->
      level <> WarnLevel -> embedCollor level = 12434877%Z).
Proof.
  assert (R : red_family 16725591)
    by (vm_compute; repeat split; discriminate).
  assert (Y : yellow_family 16760630)
    by (vm_compute; repeat split; discriminate).
  assert (G : grey 12434877) by (split; reflexivity).
  do 3 (split; [reflexivity|]). split; [exact R|].
  split; [reflexivity|]. split; [exact Y|]. split; [exact G|].
  unfold embedCollor, PanicLevel, FatalLevel, ErrorLevel, WarnLevel.
  intros H0 H1 H2 H3.
  destruct (N.eqb_spec level 0), (N.eqb_spec level 1),
    (N.eqb_spec level 2), (N.eqb_spec level 3); cbn; congruence.
Qed.

(** Info, and the largest [uint32], are among the other levels. *)
Lemma embedCollor_total_witness :
  embedCollor InfoLevel = 12434877%Z /\ embedCollor 4294967295%N = 12434877%Z.
Proof.
  split.
  - apply (embedCollor_total InfoLevel); discriminate.
  - apply (embedCollor_total 4294967295%N); discriminate.
Defined.

(** C9, as stated, fails: the colour of Info, as of every level that is
    not Panic, Fatal, Error or Warn, is 12434877, that is 0xBDBDBD; its
    three channels are 189, blue is not strong in it, and it is not a
    blue. *)
Lemma default_colour_not_blue :
  embedCollor InfoLevel = 12434877%Z
  /\ red_channel (embedCollor InfoLevel) = 189%Z
  /\ green_channel (embedCollor InfoLevel) = 189%Z
  /\ blue_channel (embedCollor InfoLevel) = 189%Z
  /\ ~ strong (embedCollor InfoLevel) (blue_channel (embedCollor InfoLevel))
  /\ ~ blue_family (embedCollor InfoLevel).
Proof.
  do 4 (split; [reflexivity|]).
  split; [vm_compute; discriminate|].
  intros (H & _). vm_compute in H. discriminate H.
Qed.

(** The three colours by channel: red, green, blue. *)
Lemma embedCollor_channels :
  embedCollor ErrorLevel = (255 * 65536 + 54 * 256 + 87)%Z
  /\ embedCollor WarnLevel = (255 * 65536 + 191 * 256 + 54)%Z
  /\ embedCollor InfoLevel = (189 * 65536 + 189 * 256 + 189)%Z.
Proof. repeat split. Qed.

(** ** Fire, synchronous half *)

Lemma eqb_empty_false (s : string) : s <> "" -> String.eqb s "" = false.
Proof. intros H. apply String.eqb_neq, H. Qed.

Lemma Fire_with_url h entry w :
  HookUrl h <> "" ->
  Fire h entry w
  = {| returned := None; world := snd (snapshot entry w);
       spawned := Some {| task_hook := h; task_entry := entry;
                          task_drp := fst (snapshot entry w) |} |}.
Proof.
  intros H. unfold Fire. rewrite (eqb_empty_false _ H).
  destruct (snapshot entry w); reflexivity.
Qed.

(** C2.  [Fire] returns an error exactly when the hook has no URL.  It
    then returns before the snapshot: the store is as it was and no
    goroutine is started.  With a URL it returns nil and starts the
    goroutine, whatever the entry holds. *)
Theorem Fire_error_iff_no_url (h : Hook) (entry : Entry) (w : World) :
  (returned (Fire h entry w) <> None <-> HookUrl h = "")
  /\ (HookUrl h = "" ->
      world (Fire h entry w) = w /\ spawned (Fire h entry w) = None)
  /\ (HookUrl h <> "" ->
      returned (Fire h entry w) = None
      /\ exists drp, spawned (Fire h entry w) = Some (mkTask h entry drp)).
Proof.
  destruct (String.eqb_spec (HookUrl h) "") as [E|E].
  - unfold Fire. rewrite E. cbn. repeat split; try congruence; tauto.
  - rewrite (Fire_with_url _ _ _ E). cbn. repeat split; try congruence; eauto.
Qed.

Lemma io_ReadAll_lookup w b rd :
  readers w !! b = Some rd ->
  io_ReadAll b w
  = (pending rd, fault rd,
     set_readers <[b := {| pending := ""; fault := fault rd |}]> w).
Proof. intros H. unfold io_ReadAll. rewrite H. reflexivity. Qed.

Lemma yields_lookup w b bs :
  readers w !! b = Some {| pending := bs; fault := None |} -> yields w b bs.
Proof. intros H. unfold yields. rewrite (io_ReadAll_lookup _ _ _ H). reflexivity. Qed.

Lemma yields_after_read w b b' bs :
  b <> b' ->
  readers w !! b' = Some {| pending := bs; fault := None |} ->
  yields (snd (io_ReadAll b w)) b' bs.
Proof.
  intros Hne H. apply yields_lookup. unfold io_ReadAll.
  destruct (readers w !! b); cbn; [|assumption].
  rewrite lookup_insert_ne; assumption.
Qed.

(** The snapshot of a request with a body.  The clone [r2] and the two
    buffers [b1] and [b2] are new; the request the caller holds reads from
    [b1], the clone from [b2], both over what the body held, and the
    reader [b] the request came with is left drained. *)
Lemma snapshot_live_request entry w valReq r req b rd :
  Data entry !! REQUEST_FIELD_KEY = Some (VPayload valReq) ->
  Request valReq = Some r ->
  requests w !! r = Some req ->
  r_Body req = Some b ->
  readers w !! b = Some rd ->
  exists r2 b1 b2 w',
    snapshot entry w = (Some (mkPayload (Some r2) "" "" "" ""), w')
    /\ (r2 ∉ dom (requests w)) /\ (b1 ∉ dom (readers w))
    /\ (b2 ∉ dom (readers w))
    /\ b1 <> b2
    /\ requests w' !! r = Some (set_Body req (Some b1))
    /\ requests w' !! r2 = Some (set_Body req (Some b2))
    /\ readers w' !! b1 = Some {| pending := pending rd; fault := None |}
    /\ readers w' !! b2 = Some {| pending := pending rd; fault := None |}
    /\ readers w' !! b = Some {| pending := ""; fault := fault rd |}.
Proof.
  intros HD HR Hr Hb Hrd.
  unfold snapshot. rewrite HD, HR, Hr, Hb.
  unfold Request_Clone, new_buffer, io_ReadAll, set_requests, set_readers.
  cbn [readers requests]. rewrite Hrd. cbn [readers requests].
  set (r2 := fresh (dom (requests w))).
  set (rs1 := <[b := _]> (readers w)).
  set (b1 := fresh (dom rs1)).
  set (rs2 := <[b1 := _]> rs1).
  set (b2 := fresh (dom rs2)).
  assert (F2 : r2 ∉ dom (requests w)) by apply is_fresh.
  assert (Fb1 : b1 ∉ dom rs1) by apply is_fresh.
  assert (Fb2 : b2 ∉ dom rs2) by apply is_fresh.
  unfold rs2 in Fb2. rewrite dom_insert_L in Fb2.
  unfold rs1 in Fb1, Fb2. rewrite dom_insert_L in Fb1, Fb2.
  assert (r <> r2).
  { intros ->. apply F2, elem_of_dom. eauto. }
  assert (b1 <> b2) by set_solver.
  assert (b <> b1) by set_solver.
  assert (b <> b2) by set_solver.
  assert (b1 ∉ dom (readers w)) by set_solver.
  assert (b2 ∉ dom (readers w)) by set_solver.
  exists r2, b1, b2. eexists. split; [reflexivity|]. cbn [readers requests].
  do 4 (split; [assumption|]). split_and!.
  - rewrite lookup_insert_ne, lookup_insert_eq by congruence. reflexivity.
  - rewrite lookup_insert_eq. reflexivity.
  - unfold rs2. rewrite lookup_insert_ne, lookup_insert_eq by congruence. reflexivity.
  - rewrite lookup_insert_eq. reflexivity.
  - unfold rs2, rs1.
    rewrite !lookup_insert_ne, lookup_insert_eq by congruence. reflexivity.
Qed.

Lemma Fire_live_request h entry w valReq r req b rd :
  HookUrl h <> "" ->
  Data entry !! REQUEST_FIELD_KEY = Some (VPayload valReq) ->
  Request valReq = Some r ->
  requests w !! r = Some req ->
  r_Body req = Some b ->
  readers w !! b = Some rd ->
  exists r2 b1 b2,
    returned (Fire h entry w) = None
    /\ spawned (Fire h entry w)
       = Some (mkTask h entry (Some (mkPayload (Some r2) "" "" "" "")))
    /\ (r2 ∉ dom (requests w)) /\ (b1 ∉ dom (readers w))
    /\ (b2 ∉ dom (readers w)) /\ b1 <> b2
    /\ requests (world (Fire h entry w)) !! r = Some (set_Body req (Some b1))
    /\ requests (world (Fire h entry w)) !! r2 = Some (set_Body req (Some b2))
    /\ readers (world (Fire h entry w)) !! b1
       = Some {| pending := pending rd; fault := None |}
    /\ readers (world (Fire h entry w)) !! b2
       = Some {| pending := pending rd; fault := None |}
    /\ readers (world (Fire h entry w)) !! b
       = Some {| pending := ""; fault := fault rd |}.
Proof.
  intros Hurl HD HR Hr Hb Hrd.
  destruct (snapshot_live_request _ _ _ _ _ _ _ HD HR Hr Hb Hrd)
    as (r2 & b1 & b2 & w' & Hs & H).
  exists r2, b1, b2. rewrite (Fire_with_url _ _ _ Hurl), Hs. cbn [returned spawned world fst snd].
  split; [reflexivity|]. split; [reflexivity|]. exact H.
Qed.

(** The request the goroutine renders after [Fire]: the clone, whose body
    holds what the body of the logged request held. *)
Lemma Fire_snapshot_body h entry w valReq r req b rd :
  HookUrl h <> "" ->
  Data entry !! REQUEST_FIELD_KEY = Some (VPayload valReq) ->
  Request valReq = Some r ->
  requests w !! r = Some req ->
  r_Body req = Some b ->
  readers w !! b = Some rd ->
  exists r2 b2,
    spawned (Fire h entry w)
    = Some (mkTask h entry (Some (mkPayload (Some r2) "" "" "" "")))
    /\ requests (world (Fire h entry w)) !! r2 = Some (set_Body req (Some b2))
    /\ body_bytes (world (Fire h entry w)) (set_Body req (Some b2)) = pending rd.
Proof.
  intros Hurl HD HR Hr Hb Hrd.
  destruct (Fire_live_request _ _ _ _ _ _ _ _ Hurl HD HR Hr Hb Hrd)
    as (r2 & b1 & b2 & _ & H2 & _ & _ & _ & _ & _ & H8 & _ & H10 & _).
  exists r2, b2. split; [exact H2|]. split; [exact H8|].
  unfold body_bytes. cbn [r_Body set_Body]. rewrite H10. reflexivity.
Qed.

(** What the goroutine reads from the body of its request. *)
Lemma read_body_lookup req r w b rd :
  r_Body req = Some b ->
  readers w !! b = Some rd ->
  fst (fst (read_body req r w)) = Some (pending rd).
Proof.
  intros Hb Hrd. unfold read_body. rewrite Hb, (io_ReadAll_lookup _ _ _ Hrd).
  reflexivity.
Qed.

(** C3, amended.  A hook with a URL is fired on an entry whose "request"
    value holds a request with a body, and the body yields [B].  When
    [Fire] has returned, the request's [Body] is a reader that did not
    exist before and yields exactly [B]; the snapshot given to the
    goroutine is a new request whose [Body] is another new reader that
    yields exactly [B]; and reading either of the two to the end leaves
    the other yielding [B].  The reader the request came with has been
    read to its end: it is through the new [Body] that the caller reads
    [B]. *)
Theorem Fire_restores_body (h : Hook) (entry : Entry) (w : World)
    (valReq : LoggerHttpRequestPayload) (r : loc) (req : httpRequest)
    (b : loc) (B : string) :
  HookUrl h <> "" ->
  Data entry !! REQUEST_FIELD_KEY = Some (VPayload valReq) ->
  Request valReq = Some r ->
  requests w !! r = Some req ->
  r_Body req = Some b ->
  readers w !! b = Some {| pending := B; fault := None |} ->
  exists r2 b1 b2,
    returned (Fire h entry w) = None
    /\ spawned (Fire h entry w)
       = Some (mkTask h entry (Some (mkPayload (Some r2) "" "" "" "")))
    /\ requests (world (Fire h entry w)) !! r = Some (set_Body req (Some b1))
    /\ (b1 ∉ dom (readers w))
    /\ yields (world (Fire h entry w)) b1 B
    /\ (r2 ∉ dom (requests w))
    /\ requests (world (Fire h entry w)) !! r2 = Some (set_Body req (Some b2))
    /\ (b2 ∉ dom (readers w))
    /\ yields (world (Fire h entry w)) b2 B
    /\ b1 <> b2
    /\ yields (snd (io_ReadAll b1 (world (Fire h entry w)))) b2 B
    /\ yields (snd (io_ReadAll b2 (world (Fire h entry w)))) b1 B
    /\ yields (world (Fire h entry w)) b "".
Proof.
  intros Hurl HD HR Hr Hb Hrd.
  destruct (Fire_live_request _ _ _ _ _ _ _ _ Hurl HD HR Hr Hb Hrd)
    as (r2 & b1 & b2 & H1 & H2 & H3 & H4 & H5 & H6 & H7 & H8 & H9 & H10 & H11).
  cbn [pending fault] in H9, H10, H11.
  exists r2, b1, b2. split_and!; try assumption.
  - apply yields_lookup, H9.
  - apply yields_lookup, H10.
  - apply yields_after_read; assumption.
  - apply yields_after_read; [congruence | assumption].
  - apply yields_lookup, H11.
Qed.

(** C8, amended.  A hook with a URL is fired on an entry whose request has
    a body whose reading fails with [e] after the bytes [B].  [Fire]
    returns nil and starts the goroutine; the request's [Body] and the
    snapshot's [Body] are new readers that both yield exactly [B], the
    bytes read before the failure, and no error; the goroutine reads [B]
    as the body. *)
Theorem Fire_read_error_keeps_bytes (h : Hook) (entry : Entry) (w : World)
    (valReq : LoggerHttpRequestPayload) (r : loc) (req : httpRequest)
    (b : loc) (B : string) (e : error) :
  HookUrl h <> "" ->
  Data entry !! REQUEST_FIELD_KEY = Some (VPayload valReq) ->
  Request valReq = Some r ->
  requests w !! r = Some req ->
  r_Body req = Some b ->
  readers w !! b = Some {| pending := B; fault := Some e |} ->
  fst (io_ReadAll b w) = (B, Some e)
  /\ exists r2 b1 b2 req2,
       returned (Fire h entry w) = None
       /\ spawned (Fire h entry w)
          = Some (mkTask h entry (Some (mkPayload (Some r2) "" "" "" "")))
       /\ requests (world (Fire h entry w)) !! r = Some (set_Body req (Some b1))
       /\ yields (world (Fire h entry w)) b1 B
       /\ requests (world (Fire h entry w)) !! r2 = Some req2
       /\ r_Body req2 = Some b2
       /\ yields (world (Fire h entry w)) b2 B
       /\ fst (fst (read_body req2 r2 (world (Fire h entry w)))) = Some B.
Proof.
  intros Hurl HD HR Hr Hb Hrd. split.
  - rewrite (io_ReadAll_lookup _ _ _ Hrd). reflexivity.
  - destruct (Fire_live_request _ _ _ _ _ _ _ _ Hurl HD HR Hr Hb Hrd)
      as (r2 & b1 & b2 & H1 & H2 & H3 & H4 & H5 & H6 & H7 & H8 & H9 & H10 & _).
    cbn [pending] in H9, H10.
    exists r2, b1, b2, (set_Body req (Some b2)). split_and!; try assumption.
    + apply yields_lookup, H9.
    + reflexivity.
    + apply yields_lookup, H10.
    + apply (read_body_lookup (set_Body req (Some b2)) r2 _ b2 _ eq_refl H10).
Qed.

(** ** Fire, asynchronous half *)

Lemma read_body_bytes req r w :
  default "" (fst (fst (read_body req r w))) = body_bytes w req.
Proof.
  unfold read_body, body_bytes, io_ReadAll.
  destruct (r_Body req) as [b|]; [|reflexivity].
  destruct (readers w !! b); reflexivity.
Qed.

Lemma read_body_Header req r w :
  r_Header (snd (fst (read_body req r w))) = r_Header req.
Proof.
  unfold read_body, io_ReadAll.
  destruct (r_Body req) as [b|]; [|reflexivity].
  destruct (readers w !! b); reflexivity.
Qed.

Lemma read_body_nil req r w :
  r_Body req = None -> fst (fst (read_body req r w)) = None.
Proof. intros H. unfold read_body. rewrite H. reflexivity. Qed.

(** The fields of a snapshot that holds a request: method, URL, and what
    the switch on the content type adds. *)
Lemma payload_fields_live go drp w r req u :
  Request drp = Some r ->
  requests w !! r = Some req ->
  r_URL req = Some u ->
  payload_fields go (Some drp) w
  = bind (body_fields go (snd (fst (read_body req r w)))
                      (fst (fst (read_body req r w))))
         (fun more => Ok ([field "Method" (fence_sp (r_Method req));
                           field "URL" (fence_sp u)] ++ more)%list).
Proof.
  intros HR Hr HU. unfold payload_fields. rewrite HR, Hr, HU.
  destruct (read_body req r w) as [[body req'] w']. reflexivity.
Qed.

(** Line 162 on a request without URL: the goroutine panics before it
    reads the body. *)
Lemma payload_fields_nil_URL go drp w r req :
  Request drp = Some r ->
  requests w !! r = Some req ->
  r_URL req = None ->
  payload_fields go (Some drp) w = Panic nil_dereference.
Proof.
  intros HR Hr HU. unfold payload_fields. rewrite HR, Hr, HU. reflexivity.
Qed.



Lemma Level_title_not (level : Level) (t : string) :
  t = "MESSAGE" \/ t = "REQUEST PAYLOAD" ->
  String.eqb (strings_ToUpper (Level_String level)) t = false.
Proof.
  intros [-> | ->]; destruct level as [|p]; try reflexivity;
    do 4 (try destruct p as [p|p|]); reflexivity.
Qed.

(** When the fields are rendered, the goroutine reaches [http.NewRequest];
    what follows depends on its answer and on the length of the message
    alone. *)
Lemma deliver_rendered go h entry drp w fields :
  payload_fields go drp w = Ok fields ->
  deliver go h entry drp w
  = match http_NewRequest go "POST" (HookUrl h) with
    | Some e => if sendAsFile entry then Aborted (Error e)
                else Crashed nil_dereference
    | None =>
        Posted
          (if sendAsFile entry then
             {| post_method := "POST"; post_url := HookUrl h;
                post_content_type :=
                  "multipart/form-data; boundary=" +:+ multipart_boundary go;
                post_body :=
                  Multipart (multipart_boundary go)
                    [FormField "payload_json" (marshal go (document go entry fields));
                     FormFile "files[0]" "log.txt" (Message entry)] |}
           else
             {| post_method := "POST"; post_url := HookUrl h;
                post_content_type := "application/json";
                post_body := Bytes (marshal go (document go entry fields)) |})
    end.
Proof.
  intros H. unfold deliver, json_Marshal. rewrite H.
  destruct (sendAsFile entry), (http_NewRequest go "POST" (HookUrl h)); reflexivity.
Qed.

Lemma deliver_crashed go h entry drp w why :
  payload_fields go drp w = Panic why -> deliver go h entry drp w = Crashed why.
Proof. intros H. unfold deliver. rewrite H. reflexivity. Qed.

(** A request is posted exactly when the fields are rendered and
    [http.NewRequest] accepts the URL. *)
Lemma deliver_posts go h entry drp w fields :
  payload_fields go drp w = Ok fields ->
  http_NewRequest go "POST" (HookUrl h) = None ->
  exists p, deliver go h entry drp w = Posted p
            /\ post_url p = HookUrl h
            /\ payload_json p = [marshal go (document go entry fields)].
Proof.
  intros H E. rewrite (deliver_rendered _ _ _ _ _ _ H), E.
  eexists. split; [reflexivity|]. destruct (sendAsFile entry); split; reflexivity.
Qed.

Lemma deliver_posted_inv go h entry drp w p :
  deliver go h entry drp w = Posted p ->
  exists fields, payload_fields go drp w = Ok fields
                 /\ http_NewRequest go "POST" (HookUrl h) = None.
Proof.
  intros H. destruct (payload_fields go drp w) as [fields|why] eqn:E.
  - exists fields. split; [reflexivity|].
    rewrite (deliver_rendered _ _ _ _ _ _ E) in H.
    destruct (http_NewRequest go "POST" (HookUrl h)); [|reflexivity].
    destruct (sendAsFile entry); discriminate.
  - rewrite (deliver_crashed _ _ _ _ _ _ E) in H. discriminate.
Qed.

Lemma titled_first (t x : string) (rest : list (string * JSON)) :
  titled t (JObject (("title", JString x) :: rest)) = String.eqb x t.
Proof. reflexivity. Qed.

Lemma titled_embeds go entry fields :
  List.filter (titled "MESSAGE") (embeds go entry fields)
  = (if sendAsFile entry then [] else [message_embed entry])
  /\ List.filter (titled "REQUEST PAYLOAD") (embeds go entry fields)
     = [JObject [("title", JString "REQUEST PAYLOAD");
                 ("fields", JArray fields);
                 ("color", JNumber (embedCollor (EntryLevel entry)))]].
Proof.
  unfold embeds, message_embed.
  destruct (sendAsFile entry); cbn [negb app List.filter];
    rewrite !titled_first, !Level_title_not by auto; split; reflexivity.
Qed.

(** C1.  Every request the goroutine posts is a POST to the URL of the
    hook and carries the message once: as the "MESSAGE" embed or as a
    file, not both and not neither.  When the message has at most 500
    bytes, the document has one embed titled "MESSAGE", whose description
    is the message between code fences, and the request has content type
    application/json, the serialized document as its body and no file.
    When the message is longer, the document has no embed titled
    "MESSAGE", and the request is a multipart form of two parts: the field
    "payload_json" with the serialized document, and the file "log.txt"
    under "files[0]" with exactly the bytes of the message. *)
Theorem message_inline_or_attached (go : Runtime) (h : Hook) (entry : Entry)
    (drp : option LoggerHttpRequestPayload) (w : World) (p : Post) :
  deliver go h entry drp w = Posted p ->
  exists fields,
    payload_fields go drp w = Ok fields
    /\ member "embeds" (document go entry fields)
       = Some (JArray (embeds go entry fields))
    /\ payload_json p = [marshal go (document go entry fields)]
    /\ post_method p = "POST"
    /\ post_url p = HookUrl h
    /\ if (String.length (Message entry) <=? 500)%nat then
         List.filter (titled "MESSAGE") (embeds go entry fields)
         = [message_embed entry]
         /\ member "description" (message_embed entry)
            = Some (JString ("```" +:+ Message entry +:+ " ```"))
         /\ post_content_type p = "application/json"
         /\ post_body p = Bytes (marshal go (document go entry fields))
         /\ attachments p = []
       else
         List.filter (titled "MESSAGE") (embeds go entry fields) = []
         /\ post_content_type p
            = "multipart/form-data; boundary=" +:+ multipart_boundary go
         /\ post_body p
            = Multipart (multipart_boundary go)
                [FormField "payload_json" (marshal go (document go entry fields));
                 FormFile "files[0]" "log.txt" (Message entry)]
         /\ attachments p = [("files[0]", "log.txt", Message entry)].
Proof.
  intros H.
  destruct (deliver_posted_inv _ _ _ _ _ _ H) as (fields & Hf & Hn).
  exists fields. split; [exact Hf|]. split; [reflexivity|].
  rewrite (deliver_rendered _ _ _ _ _ _ Hf), Hn in H.
  destruct (titled_embeds go entry fields) as [Ht _]. rewrite Ht.
  assert (E : (String.length (Message entry) <=? 500)%nat = negb (sendAsFile entry))
    by apply Nat.leb_antisym.
  rewrite E.
  destruct (sendAsFile entry); injection H as <-; cbn [negb];
    repeat split; reflexivity.
Qed.

(** An empty field list is written as an empty JSON array. *)
Lemma marshal_no_fields go : marshal go (JArray []) = "[]".
Proof. reflexivity. Qed.

(** C10.  A hook is fired, past the guard on its URL, on an entry whose
    "request" value is absent or is not a [LoggerHttpRequestPayload].  The
    snapshot is nil and the store untouched, [Fire] returns nil, the
    goroutine renders no field, and the document it posts has a "REQUEST
    PAYLOAD" embed whose field list is empty. *)
Theorem no_payload_without_request (go : Runtime) (h : Hook) (entry : Entry)
    (w : World) :
  HookUrl h <> "" ->
  (forall valReq, Data entry !! REQUEST_FIELD_KEY <> Some (VPayload valReq)) ->
  snapshot entry w = (None, w)
  /\ returned (Fire h entry w) = None
  /\ world (Fire h entry w) = w
  /\ spawned (Fire h entry w) = Some (mkTask h entry None)
  /\ forall w' : World,
       payload_fields go None w' = Ok []
       /\ List.filter (titled "REQUEST PAYLOAD") (embeds go entry [])
          = [JObject [("title", JString "REQUEST PAYLOAD");
                      ("fields", JArray []);
                      ("color", JNumber (embedCollor (EntryLevel entry)))]]
       /\ (forall p, run go (mkTask h entry None) w' = Posted p ->
           payload_json p = [marshal go (document go entry [])])
       /\ (http_NewRequest go "POST" (HookUrl h) = None ->
           exists p, run go (mkTask h entry None) w' = Posted p).
Proof.
  intros Hurl Hno.
  assert (Hs : snapshot entry w = (None, w)).
  { unfold snapshot.
    destruct (Data entry !! REQUEST_FIELD_KEY) as [[valReq| | | |]|] eqn:E;
      try reflexivity.
    destruct (Hno valReq eq_refl). }
  rewrite (Fire_with_url _ _ _ Hurl), Hs. cbn [returned world spawned fst snd].
  do 4 (split; [reflexivity|]).
  intros w'. split; [reflexivity|].
  split; [apply titled_embeds|]. unfold run. cbn [task_hook task_entry task_drp].
  split.
  - intros p Hp.
    destruct (deliver_posted_inv _ _ _ _ _ _ Hp) as (fields & Hf & Hn).
    destruct (deliver_posts go h entry None w' fields Hf Hn) as (p' & Hp' & _ & Hj).
    injection Hf as <-. congruence.
  - intros Hn.
    destruct (deliver_posts go h entry None w' [] eq_refl Hn) as (p & Hp & _).
    eauto.
Qed.

(** *** The switch on the content type *)



Lemma body_fields_urlencoded go req body :
  strings_Contains (Header_Get (r_Header req) "Content-Type")
                   "application/json" = false ->
  strings_Contains (Header_Get (r_Header req) "Content-Type")
                   "multipart/form-data" = false ->
  strings_Contains (Header_Get (r_Header req) "Content-Type")
                   "application/x-www-form-urlencoded" = true ->
  body_fields go req body
  = Ok (if (0 <? String.length (default "" body))%nat then
          match snd (url_ParseQuery (default "" body)) with
          | Some _ => [field "Body" (fence_sp (default "" body))]
          | None =>
              [field "Body"
                 (fence (marshal_indent go 0
                    (JObject
                       (List.map (fun kv => (fst kv, strings_json (snd kv)))
                          (map_to_list (fst (url_ParseQuery (default "" body))))))))]
          end
        else []).
Proof.
  intros H1 H2 H3. unfold body_fields. cbv zeta. rewrite H1, H2, H3.
  destruct (0 <? String.length (default "" body))%nat; [|reflexivity].
  destruct (url_ParseQuery (default "" body)) as [parsedForm [e|]]; reflexivity.
Qed.

Lemma length_zero_empty (s : string) : String.length s = 0 <-> s = "".
Proof. destruct s; cbn; split; intros; congruence. Qed.

(** C6, amended.  The snapshot holds a request with a URL whose content
    type contains "application/x-www-form-urlencoded" and neither
    "application/json" nor "multipart/form-data".  An empty body gives no
    "Body" field.  A body that [url.ParseQuery] rejects gives a "Body"
    field with the raw body between code fences.  A body it accepts gives
    a "Body" field with the indented JSON of the object that maps each key
    to the list of its values; for the body a=1&b=2 that object maps a to
    the list of "1" and b to the list of "2". *)
Theorem urlencoded_body_field (go : Runtime) (drp : LoggerHttpRequestPayload)
    (w : World) (r : loc) (req : httpRequest) (u : string) :
  Request drp = Some r ->
  requests w !! r = Some req ->
  r_URL req = Some u ->
  strings_Contains (Header_Get (r_Header req) "Content-Type")
                   "application/json" = false ->
  strings_Contains (Header_Get (r_Header req) "Content-Type")
                   "multipart/form-data" = false ->
  strings_Contains (Header_Get (r_Header req) "Content-Type")
                   "application/x-www-form-urlencoded" = true ->
  (body_bytes w req = "" ->
   payload_fields go (Some drp) w
   = Ok [field "Method" (fence_sp (r_Method req));
         field "URL" (fence_sp u)])
  /\ (body_bytes w req <> "" ->
      forall e, snd (url_ParseQuery (body_bytes w req)) = Some e ->
      payload_fields go (Some drp) w
      = Ok [field "Method" (fence_sp (r_Method req));
            field "URL" (fence_sp u);
            field "Body" ("```" +:+ body_bytes w req +:+ " ```")])
  /\ (body_bytes w req <> "" ->
      snd (url_ParseQuery (body_bytes w req)) = None ->
      payload_fields go (Some drp) w
      = Ok [field "Method" (fence_sp (r_Method req));
            field "URL" (fence_sp u);
            field "Body"
              ("```"
               +:+ marshal_indent go 0
                     (JObject
                        (List.map (fun kv => (fst kv, JArray (List.map JString (snd kv))))
                           (map_to_list (fst (url_ParseQuery (body_bytes w req))))))
               +:+ "```")])
  /\ (body_bytes w req = "a=1&b=2" ->
      payload_fields go (Some drp) w
      = Ok [field "Method" (fence_sp (r_Method req));
            field "URL" (fence_sp u);
            field "Body"
              ("```"
               +:+ marshal_indent go 0
                     (JObject [("a", JArray [JString "1"]);
                               ("b", JArray [JString "2"])])
               +:+ "```")]).
Proof.
  intros HR Hr HU H1 H2 H3.
  rewrite (payload_fields_live _ _ _ _ _ _ HR Hr HU).
  rewrite body_fields_urlencoded by (rewrite read_body_Header; assumption).
  rewrite read_body_bytes. cbn [bind].
  split_and!.
  - intros ->. reflexivity.
  - intros Hne e He. rewrite He.
    destruct (Nat.ltb_spec 0 (String.length (body_bytes w req))) as [_|Hl];
      [reflexivity|].
    destruct Hne. apply length_zero_empty. lia.
  - intros Hne He. rewrite He.
    destruct (Nat.ltb_spec 0 (String.length (body_bytes w req))) as [_|Hl];
      [reflexivity|].
    destruct Hne. apply length_zero_empty. lia.
  - intros ->. vm_compute. reflexivity.
Qed.

Lemma mapM_total {A B : Type} (f : A -> result B) (g : A -> B) (l : list A) :
  (forall a, In a l -> f a = Ok (g a)) -> mapM f l = Ok (List.map g l).
Proof.
  induction l as [|a l IH]; intros H; [reflexivity|].
  cbn [mapM List.map]. rewrite (H a (or_introl eq_refl)). cbn [bind].
  rewrite IH by (intros; apply H; right; assumption). reflexivity.
Qed.

Lemma form_value_total (kv : string * list string) :
  snd kv <> [] -> form_value kv = Ok (fst kv, value_summary (snd kv)).
Proof.
  destruct kv as [key values]. cbn [fst snd]. intros H.
  unfold form_value, value_summary.
  destruct (1 <? length values)%nat; [reflexivity|].
  destruct values; [congruence|reflexivity].
Qed.

Lemma file_info_total go (kv : string * list FileHeader) :
  snd kv <> [] -> file_info go kv = Ok (fst kv, file_summary go (snd kv)).
Proof.
  destruct kv as [key files]. cbn [fst snd]. intros H.
  unfold file_info, file_summary.
  destruct (1 <? length files)%nat; [reflexivity|].
  destruct files; [congruence|reflexivity].
Qed.

Lemma nonempty_map_to_list {A B : Type} (m : gmap string A) (g : string * A -> B) :
  (0 <? length (List.map g (map_to_list m)))%nat
  = if decide (m = ∅) then false else true.
Proof.
  rewrite length_map. destruct (decide (m = ∅)) as [->|Hne].
  - rewrite map_to_list_empty. reflexivity.
  - destruct (map_to_list m) eqn:E; [|reflexivity].
    apply map_to_list_empty_iff in E. contradiction.
Qed.

Lemma populatedb_spec form : populatedb form = true -> populated form.
Proof.
  unfold populatedb, populated. rewrite andb_true_iff, !forallb_forall.
  intros [HV HF]. split; intros key l Hl ->.
  - specialize (HV (key, [])). cbn in HV.
    assert (false = true); [|discriminate].
    apply HV, list_elem_of_In, elem_of_map_to_list, Hl.
  - specialize (HF (key, [])). cbn in HF.
    assert (false = true); [|discriminate].
    apply HF, list_elem_of_In, elem_of_map_to_list, Hl.
Qed.

(** The summary of a form whose keys all have a value or a file. *)
Lemma multipart_summary_populated go form :
  populated form ->
  multipart_summary go (Some form)
  = Ok [field "Body" (fence (marshal_indent go 0 (form_summary go form)))].
Proof.
  intros [HV HF]. unfold multipart_summary.
  rewrite (mapM_total form_value (fun kv => (fst kv, value_summary (snd kv)))).
  2: { intros [key values] Hin. apply form_value_total. cbn [snd].
       apply (HV key), elem_of_map_to_list, list_elem_of_In, Hin. }
  cbn [bind].
  rewrite (mapM_total (file_info go) (fun kv => (fst kv, file_summary go (snd kv)))).
  2: { intros [key files] Hin. apply file_info_total. cbn [snd].
       apply (HF key), elem_of_map_to_list, list_elem_of_In, Hin. }
  cbn [bind]. rewrite !nonempty_map_to_list. unfold form_summary, json_MarshalIndent.
  repeat case_decide; try reflexivity; contradiction.
Qed.

Lemma body_fields_multipart go req body :
  strings_Contains (Header_Get (r_Header req) "Content-Type")
                   "application/json" = false ->
  strings_Contains (Header_Get (r_Header req) "Content-Type")
                   "multipart/form-data" = true ->
  body_fields go req body
  = match fst (Request_ParseMultipartForm go (32 * 1024 * 1024) req body) with
    | Some (ErrText msg) => Ok [field "Body" (fence msg)]
    | _ => multipart_summary go
             (snd (Request_ParseMultipartForm go (32 * 1024 * 1024) req body))
    end.
Proof.
  intros H1 H2. unfold body_fields. cbv zeta. rewrite H1, H2.
  change (Z.shiftl 32 20) with (32 * 1024 * 1024)%Z.
  destruct (Request_ParseMultipartForm go (32 * 1024 * 1024) req body)
    as [[[|msg]|] mf]; reflexivity.
Qed.

(** When [ParseMultipartForm] answers [http.ErrNotMultipart], the form it
    leaves is nil, and the goroutine panics on it. *)
Lemma not_multipart_crashes go h entry drp w r req :
  Request drp = Some r ->
  requests w !! r = Some req ->
  strings_Contains (Header_Get (r_Header req) "Content-Type")
                   "application/json" = false ->
  strings_Contains (Header_Get (r_Header req) "Content-Type")
                   "multipart/form-data" = true ->
  parse_answer go (32 * 1024 * 1024) w r req = (Some ErrNotMultipart, None) ->
  deliver go h entry (Some drp) w = Crashed nil_dereference.
Proof.
  intros HR Hr H1 H2 HP. apply deliver_crashed.
  destruct (r_URL req) as [u|] eqn:HU;
    [|apply (payload_fields_nil_URL _ _ _ _ _ HR Hr HU)].
  rewrite (payload_fields_live _ _ _ _ _ _ HR Hr HU).
  rewrite body_fields_multipart by (rewrite read_body_Header; assumption).
  unfold parse_answer in HP. rewrite HP. reflexivity.
Qed.

(** The multipart case on the answers of [ParseMultipartForm] other than
    [http.ErrNotMultipart].  The snapshot holds a request with a URL whose
    content type contains "multipart/form-data" and not
    "application/json".  The goroutine calls [ParseMultipartForm] with a
    budget of 32 MiB.  When the call fails with an error other than
    [http.ErrNotMultipart], the "Body" field is the text of the error
    between code fences.  When it succeeds with a form whose keys all have
    a value or a file, the "Body" field is the indented JSON of the form's
    values under "form_fields" and of its files (name and size in KB)
    under "uploaded_files", lists where a key has several, either key left
    out when the form has none.  In both cases rendering returns, and the
    goroutine posts the document with these fields whenever
    [http.NewRequest] accepts the URL. *)
Lemma multipart_body_field (go : Runtime) (h : Hook) (entry : Entry)
    (drp : LoggerHttpRequestPayload) (w : World) (r : loc) (req : httpRequest)
    (u : string) :
  Request drp = Some r ->
  requests w !! r = Some req ->
  r_URL req = Some u ->
  strings_Contains (Header_Get (r_Header req) "Content-Type")
                   "application/json" = false ->
  strings_Contains (Header_Get (r_Header req) "Content-Type")
                   "multipart/form-data" = true ->
  (forall msg,
     fst (parse_answer go (32 * 1024 * 1024) w r req) = Some (ErrText msg) ->
     payload_fields go (Some drp) w
     = Ok [field "Method" (fence_sp (r_Method req));
           field "URL" (fence_sp u);
           field "Body" ("```" +:+ msg +:+ "```")])
  /\ (forall form,
        parse_answer go (32 * 1024 * 1024) w r req = (None, Some form) ->
        populated form ->
        payload_fields go (Some drp) w
        = Ok [field "Method" (fence_sp (r_Method req));
              field "URL" (fence_sp u);
              field "Body"
                ("```" +:+ marshal_indent go 0 (form_summary go form) +:+ "```")])
  /\ ((exists msg,
         fst (parse_answer go (32 * 1024 * 1024) w r req) = Some (ErrText msg))
      \/ (exists form,
            parse_answer go (32 * 1024 * 1024) w r req = (None, Some form)
            /\ populated form) ->
      exists fields,
        payload_fields go (Some drp) w = Ok fields
        /\ (http_NewRequest go "POST" (HookUrl h) = None ->
            exists p, deliver go h entry (Some drp) w = Posted p
                      /\ payload_json p = [marshal go (document go entry fields)])).
Proof.
  intros HR Hr HU H1 H2.
  assert (E : payload_fields go (Some drp) w
              = bind (match fst (parse_answer go (32 * 1024 * 1024) w r req) with
                      | Some (ErrText msg) => Ok [field "Body" (fence msg)]
                      | _ => multipart_summary go
                               (snd (parse_answer go (32 * 1024 * 1024) w r req))
                      end)
                     (fun more => Ok ([field "Method" (fence_sp (r_Method req));
                                       field "URL" (fence_sp u)]
                                      ++ more)%list)).
  { rewrite (payload_fields_live _ _ _ _ _ _ HR Hr HU).
    rewrite body_fields_multipart by (rewrite read_body_Header; assumption).
    reflexivity. }
  assert (A : forall msg,
            fst (parse_answer go (32 * 1024 * 1024) w r req) = Some (ErrText msg) ->
            payload_fields go (Some drp) w
            = Ok [field "Method" (fence_sp (r_Method req));
                  field "URL" (fence_sp u);
                  field "Body" ("```" +:+ msg +:+ "```")]).
  { intros msg Hm. rewrite E, Hm. reflexivity. }
  assert (B : forall form,
            parse_answer go (32 * 1024 * 1024) w r req = (None, Some form) ->
            populated form ->
            payload_fields go (Some drp) w
            = Ok [field "Method" (fence_sp (r_Method req));
                  field "URL" (fence_sp u);
                  field "Body"
                    ("```" +:+ marshal_indent go 0 (form_summary go form) +:+ "```")]).
  { intros form Hf Hp. rewrite E, Hf. cbn [fst snd].
    rewrite (multipart_summary_populated _ _ Hp). reflexivity. }
  split; [exact A|]. split; [exact B|].
  intros [[msg Hm]|[form [Hf Hp]]].
  - eexists. split; [apply (A msg Hm)|]. intros Hn.
    destruct (deliver_posts go h entry _ w _ (A msg Hm) Hn) as (p & Hp & _ & Hj).
    eauto.
  - eexists. split; [apply (B form Hf Hp)|]. intros Hn.
    destruct (deliver_posts go h entry _ w _ (B form Hf Hp) Hn) as (p & Hq & _ & Hj).
    eauto.
Qed.

(** * The statements on the samples *)

(** The same entry fired on a hook without URL and on one with. *)
Lemma Fire_error_iff_no_url_witness :
  returned (Fire Samples.hook_no_url (Samples.entry_plain "boom") Samples.empty_store)
  <> None
  /\ spawned (Fire Samples.hook_no_url (Samples.entry_plain "boom") Samples.empty_store)
     = None
  /\ returned (Fire Samples.hook (Samples.entry_plain "boom") Samples.empty_store)
     = None.
Proof.
  destruct (Fire_error_iff_no_url Samples.hook_no_url (Samples.entry_plain "boom")
              Samples.empty_store) as (H1 & H2 & _).
  destruct (Fire_error_iff_no_url Samples.hook (Samples.entry_plain "boom")
              Samples.empty_store) as (_ & _ & H3).
  split; [apply H1; reflexivity|].
  split; [apply H2; reflexivity|apply H3; discriminate].
Defined.

(** A request whose body holds "ping": after [Fire], the request and the
    snapshot read "ping" from two readers. *)
Lemma Fire_restores_body_witness :
  exists b1 b2,
    r_Body <$> (requests (world (Samples.fired Samples.text_request "ping" None)) !! 0)
    = Some (Some b1)
    /\ yields (world (Samples.fired Samples.text_request "ping" None)) b1 "ping"
    /\ yields (world (Samples.fired Samples.text_request "ping" None)) b2 "ping"
    /\ b1 <> b2.
Proof.
  destruct (Fire_restores_body Samples.hook
              (Samples.entry_with_request "upload failed")
              (Samples.store Samples.text_request "ping" None)
              (mkPayload (Some 0) "" "" "" "") 0 Samples.text_request 0 "ping")
    as (r2 & b1 & b2 & _ & _ & H1 & _ & H2 & _ & _ & _ & H3 & H4 & _);
    [discriminate | reflexivity ..|].
  exists b1, b2. unfold Samples.fired, loc in *. rewrite H1.
  repeat split; assumption.
Defined.

(** A request whose body breaks after "abc". *)
Lemma Fire_read_error_keeps_bytes_witness :
  fst (io_ReadAll 0 (Samples.store Samples.text_request "abc"
                       (Some (ErrText "unexpected EOF"))))
  = ("abc", Some (ErrText "unexpected EOF"))
  /\ exists b1,
       returned (Samples.fired Samples.text_request "abc"
                   (Some (ErrText "unexpected EOF"))) = None
       /\ r_Body <$> (requests (world (Samples.fired Samples.text_request "abc"
                                        (Some (ErrText "unexpected EOF")))) !! 0)
          = Some (Some b1)
       /\ yields (world (Samples.fired Samples.text_request "abc"
                           (Some (ErrText "unexpected EOF")))) b1 "abc".
Proof.
  destruct (Fire_read_error_keeps_bytes Samples.hook
              (Samples.entry_with_request "upload failed")
              (Samples.store Samples.text_request "abc"
                 (Some (ErrText "unexpected EOF")))
              (mkPayload (Some 0) "" "" "" "") 0 Samples.text_request 0 "abc"
              (ErrText "unexpected EOF"))
    as (H0 & r2 & b1 & b2 & req2 & H1 & _ & H2 & H3 & _);
    [discriminate | reflexivity ..|].
  split; [exact H0|]. exists b1. unfold Samples.fired, loc in *. rewrite H2.
  repeat split; assumption.
Defined.

(** C8, as stated, fails: the body stream of the request breaks after
    "abc"; [Fire] returns nil, and the reader it puts back into the
    request yields "abc", not the empty body. *)
Lemma read_error_body_not_empty :
  fst (io_ReadAll 0 (Samples.store Samples.text_request "abc"
                       (Some (ErrText "unexpected EOF"))))
  = ("abc", Some (ErrText "unexpected EOF"))
  /\ returned (Samples.fired Samples.text_request "abc"
                 (Some (ErrText "unexpected EOF"))) = None
  /\ r_Body <$> (requests (world (Samples.fired Samples.text_request "abc"
                                   (Some (ErrText "unexpected EOF")))) !! 0)
     = Some (Some 1)
  /\ yields (world (Samples.fired Samples.text_request "abc"
                      (Some (ErrText "unexpected EOF")))) 1 "abc"
  /\ ~ yields (world (Samples.fired Samples.text_request "abc"
                        (Some (ErrText "unexpected EOF")))) 1 ""
  /\ ~ yields (world (Samples.fired Samples.text_request "abc"
                        (Some (ErrText "unexpected EOF")))) 2 "".
Proof.
  unfold yields. vm_compute. repeat split; discriminate.
Qed.

(** A "request" value that is a string, one that is a pointer to a
    payload, and none at all. *)
Lemma no_payload_without_request_witness :
  spawned (Fire Samples.hook (Samples.entry_with (VString "GET /users"))
             Samples.empty_store)
  = Some (mkTask Samples.hook (Samples.entry_with (VString "GET /users")) None)
  /\ spawned (Fire Samples.hook
                (Samples.entry_with (VPayloadPtr (mkPayload None "GET" "/users" "" "")))
                Samples.empty_store)
     = Some (mkTask Samples.hook
               (Samples.entry_with (VPayloadPtr (mkPayload None "GET" "/users" "" "")))
               None)
  /\ exists p,
       run Samples.rt (mkTask Samples.hook (Samples.entry_plain "boom") None)
           Samples.empty_store = Posted p.
Proof.
  destruct (no_payload_without_request Samples.rt Samples.hook
              (Samples.entry_with (VString "GET /users")) Samples.empty_store)
    as (_ & _ & _ & H1 & _); [discriminate | intros valReq; discriminate |].
  destruct (no_payload_without_request Samples.rt Samples.hook
              (Samples.entry_with (VPayloadPtr (mkPayload None "GET" "/users" "" "")))
              Samples.empty_store)
    as (_ & _ & _ & H2 & _); [discriminate | intros valReq; discriminate |].
  destruct (no_payload_without_request Samples.rt Samples.hook
              (Samples.entry_plain "boom") Samples.empty_store)
    as (_ & _ & _ & _ & H3); [discriminate | intros valReq; discriminate |].
  destruct (H3 Samples.empty_store) as (_ & _ & _ & H4).
  split; [exact H1|]. split; [exact H2|]. apply H4. reflexivity.
Defined.

(** Messages of 500 and of 501 bytes. *)
Lemma message_inline_or_attached_witness :
  (exists p,
     deliver Samples.rt Samples.hook Samples.entry_500 None Samples.empty_store
     = Posted p
     /\ post_content_type p = "application/json"
     /\ attachments p = [])
  /\ (exists p,
        deliver Samples.rt Samples.hook Samples.entry_501 None Samples.empty_store
        = Posted p
        /\ List.filter (titled "MESSAGE") (embeds Samples.rt Samples.entry_501 []) = []
        /\ attachments p = [("files[0]", "log.txt", Message Samples.entry_501)]).
Proof.
  split.
  - destruct (deliver Samples.rt Samples.hook Samples.entry_500 None
                Samples.empty_store) as [p|d|why] eqn:E;
      [|vm_compute in E; discriminate ..].
    exists p. split; [reflexivity|].
    destruct (message_inline_or_attached _ _ _ _ _ _ E)
      as (fields & _ & _ & _ & _ & _ & H).
    assert (L : (String.length (Message Samples.entry_500) <=? 500)%nat = true)
      by (vm_compute; reflexivity).
    rewrite L in H. destruct H as (_ & _ & H1 & _ & H2). split; assumption.
  - destruct (deliver Samples.rt Samples.hook Samples.entry_501 None
                Samples.empty_store) as [p|d|why] eqn:E;
      [|vm_compute in E; discriminate ..].
    exists p. split; [reflexivity|].
    destruct (message_inline_or_attached _ _ _ _ _ _ E)
      as (fields & Hf & _ & _ & _ & _ & H).
    assert (L : (String.length (Message Samples.entry_501) <=? 500)%nat = false)
      by (vm_compute; reflexivity).
    rewrite L in H. destruct H as (H1 & _ & _ & H2).
    injection Hf as <-. split; assumption.
Defined.


(** A form request with the body a=1&b=2, with none, and with a broken
    escape. *)
Lemma urlencoded_body_field_witness :
  payload_fields Samples.rt (Some Samples.snapshot_payload)
    (world (Samples.fired Samples.form_request "a=1&b=2" None))
  = Ok [field "Method" "```POST ```"; field "URL" "```/users ```";
        field "Body"
          ("```"
           +:+ marshal_indent Samples.rt 0
                 (JObject [("a", JArray [JString "1"]);
                           ("b", JArray [JString "2"])])
           +:+ "```")]
  /\ payload_fields Samples.rt (Some Samples.snapshot_payload)
       (world (Samples.fired Samples.form_request "" None))
     = Ok [field "Method" "```POST ```"; field "URL" "```/users ```"]
  /\ payload_fields Samples.rt (Some Samples.snapshot_payload)
       (world (Samples.fired Samples.form_request "a=%zz" None))
     = Ok [field "Method" "```POST ```"; field "URL" "```/users ```";
           field "Body" "```a=%zz ```"].
Proof.
  split_and!.
  - destruct (urlencoded_body_field Samples.rt Samples.snapshot_payload
                (world (Samples.fired Samples.form_request "a=1&b=2" None)) 1
                (set_Body Samples.form_request (Some 2)) "/users")
      as (_ & _ & _ & H); [reflexivity ..|].
    apply H. reflexivity.
  - destruct (urlencoded_body_field Samples.rt Samples.snapshot_payload
                (world (Samples.fired Samples.form_request "" None)) 1
                (set_Body Samples.form_request (Some 2)) "/users")
      as (H & _); [reflexivity ..|].
    apply H. reflexivity.
  - destruct (urlencoded_body_field Samples.rt Samples.snapshot_payload
                (world (Samples.fired Samples.form_request "a=%zz" None)) 1
                (set_Body Samples.form_request (Some 2)) "/users")
      as (_ & H & _); [reflexivity ..|].
    apply (H ltac:(discriminate) (ErrText "invalid URL escape")). reflexivity.
Defined.

(** C6, as stated, fails: the content type contains
    "application/x-www-form-urlencoded", the body is empty, and a "Body"
    field is rendered, because the content type also contains
    "application/json", which the switch tests first. *)
Lemma json_precedes_urlencoded :
  strings_Contains (Header_Get (r_Header Samples.both_request) "Content-Type")
                   "application/x-www-form-urlencoded" = true
  /\ requests (world (Samples.fired Samples.both_request "" None)) !! 1
     = Some (set_Body Samples.both_request (Some 2))
  /\ body_bytes (world (Samples.fired Samples.both_request "" None))
                (set_Body Samples.both_request (Some 2)) = ""
  /\ payload_fields Samples.rt (Some Samples.snapshot_payload)
       (world (Samples.fired Samples.both_request "" None))
     = Ok [field "Method" "```POST ```"; field "URL" "```/users ```";
           field "Body" "``` ```"].
Proof. vm_compute. repeat split. Qed.

(** A multipart request without boundary, as in the README, and one whose
    form the handler has parsed before logging. *)
Lemma multipart_body_field_witness :
  payload_fields Samples.rt (Some Samples.snapshot_payload)
    (world (Samples.fired Samples.upload_request "" None))
  = Ok [field "Method" "```POST ```"; field "URL" "```/users ```";
        field "Body" "```no multipart boundary param in Content-Type```"]
  /\ payload_fields Samples.rt (Some Samples.snapshot_payload)
       (world (Samples.fired Samples.parsed_request "" None))
     = Ok [field "Method" "```POST ```"; field "URL" "```/users ```";
           field "Body"
             ("```"
              +:+ marshal_indent Samples.rt 0
                    (form_summary Samples.rt Samples.parsed_form)
              +:+ "```")]
  /\ exists fields p,
       payload_fields Samples.rt (Some Samples.snapshot_payload)
         (world (Samples.fired Samples.parsed_request "" None)) = Ok fields
       /\ deliver Samples.rt Samples.hook (Samples.entry_with_request "upload failed")
            (Some Samples.snapshot_payload)
            (world (Samples.fired Samples.parsed_request "" None)) = Posted p.
Proof.
  split_and!.
  - destruct (multipart_body_field Samples.rt Samples.hook
                (Samples.entry_with_request "upload failed")
                Samples.snapshot_payload
                (world (Samples.fired Samples.upload_request "" None)) 1
                (set_Body Samples.upload_request (Some 2)) "/users")
      as (H & _); [reflexivity ..|].
    apply (H "no multipart boundary param in Content-Type"). reflexivity.
  - destruct (multipart_body_field Samples.rt Samples.hook
                (Samples.entry_with_request "upload failed")
                Samples.snapshot_payload
                (world (Samples.fired Samples.parsed_request "" None)) 1
                (set_Body Samples.parsed_request (Some 2)) "/users")
      as (_ & H & _); [reflexivity ..|].
    apply (H Samples.parsed_form); [reflexivity|].
    apply populatedb_spec. reflexivity.
  - destruct (multipart_body_field Samples.rt Samples.hook
                (Samples.entry_with_request "upload failed")
                Samples.snapshot_payload
                (world (Samples.fired Samples.parsed_request "" None)) 1
                (set_Body Samples.parsed_request (Some 2)) "/users")
      as (_ & _ & H); [reflexivity ..|].
    destruct H as (fields & Hf & Hp).
    + right. exists Samples.parsed_form. split; [reflexivity|].
      apply populatedb_spec. reflexivity.
    + destruct Hp as (p & Hp & _); [reflexivity|].
      exists fields, p. split; assumption.
Defined.

(** C4.  The code on a request whose content type, x-multipart/form-data,
    contains "multipart/form-data" without being that media type.  [Fire]
    returns nil and starts the goroutine; [ParseMultipartForm] answers
    [http.ErrNotMultipart] and leaves the form nil; the guard of line 188
    lets this error pass, line 195 reads the nil form, the goroutine
    panics, and nothing is rendered or posted. *)
Lemma mistyped_multipart_crashes :
  strings_Contains (Header_Get (r_Header Samples.mistyped_request) "Content-Type")
                   "multipart/form-data" = true
  /\ r_URL Samples.mistyped_request = Some "/users"
  /\ returned (Samples.fired Samples.mistyped_request "x" None) = None
  /\ spawned (Samples.fired Samples.mistyped_request "x" None)
     = Some (mkTask Samples.hook (Samples.entry_with_request "upload failed")
               (Some Samples.snapshot_payload))
  /\ parse_answer Samples.rt (32 * 1024 * 1024)
       (world (Samples.fired Samples.mistyped_request "x" None)) 1
       (set_Body Samples.mistyped_request (Some 2))
     = (Some ErrNotMultipart, None)
  /\ payload_fields Samples.rt (Some Samples.snapshot_payload)
       (world (Samples.fired Samples.mistyped_request "x" None))
     = Panic nil_dereference
  /\ run Samples.rt
       (mkTask Samples.hook (Samples.entry_with_request "upload failed")
          (Some Samples.snapshot_payload))
       (world (Samples.fired Samples.mistyped_request "x" None))
     = Crashed nil_dereference.
Proof. vm_compute. repeat split. Qed.

(** The same happens for a boundary parameter without a value. *)
Lemma unbounded_multipart_crashes :
  run Samples.rt
    (mkTask Samples.hook (Samples.entry_with_request "upload failed")
       (Some Samples.snapshot_payload))
    (world (Samples.fired Samples.unbounded_request "x" None))
  = Crashed nil_dereference.
Proof.
  unfold run. cbn [task_hook task_entry task_drp].
  apply (not_multipart_crashes _ _ _ _ _ 1
           (set_Body Samples.unbounded_request (Some 2))); reflexivity.
Qed.

(** C3, as stated, fails for a hook without a URL: [Fire] returns its
    error before the snapshot; the request keeps the reader it came with,
    which is not a new one, and there is no snapshot. *)
Lemma no_url_leaves_request :
  readers (Samples.store Samples.text_request "ping" None) !! 0
  = Some {| pending := "ping"; fault := None |}
  /\ returned (Fire Samples.hook_no_url (Samples.entry_with_request "upload failed")
                 (Samples.store Samples.text_request "ping" None))
     = Some (ErrText "Discord webhook url is empty")
  /\ r_Body <$> (requests
                   (world (Fire Samples.hook_no_url
                             (Samples.entry_with_request "upload failed")
                             (Samples.store Samples.text_request "ping" None))) !! 0)
     = Some (Some 0)
  /\ (0 ∈ dom (readers (Samples.store Samples.text_request "ping" None)))
  /\ spawned (Fire Samples.hook_no_url (Samples.entry_with_request "upload failed")
                (Samples.store Samples.text_request "ping" None))
     = None.
Proof.
  split_and!; try reflexivity; apply elem_of_dom; eexists; reflexivity.
Qed.

(** * Further properties *)

(** ** NewHook *)

(** X1.  A hook is never subscribed to nothing: whatever levels [NewHook]
    is given, [Levels] is not empty; and the levels of a hook, given to
    [NewHook] again, come back unchanged. *)
Theorem NewHook_subscribes (webhookURL webhookURL' : string)
    (levels : list Level) :
  Levels (NewHook webhookURL levels) <> []
  /\ Levels (NewHook webhookURL' (Levels (NewHook webhookURL levels)))
     = Levels (NewHook webhookURL levels).
Proof. destruct levels; split; try reflexivity; discriminate. Qed.

(** ** The snapshot and the store *)

Lemma set_Body_same (req : httpRequest) : set_Body req (r_Body req) = req.
Proof. destruct req. reflexivity. Qed.

Lemma fresh_not_key {A : Type} (m : gmap loc A) (k : loc) (a : A) :
  m !! k = Some a -> k <> fresh (dom m).
Proof.
  intros H ->. apply (is_fresh (dom m)), elem_of_dom. rewrite H. eauto.
Qed.

(** X2.  [Fire] removes no request from the store and changes none but in
    its [Body]: method, URL, header and parsed form of every request are
    after [Fire] what they were before. *)
Theorem Fire_keeps_requests (h : Hook) (entry : Entry) (w : World) (r : loc)
    (req : httpRequest) :
  requests w !! r = Some req ->
  exists body,
    requests (world (Fire h entry w)) !! r = Some (set_Body req body).
Proof.
  intros Hr.
  assert (Same : exists body, requests w !! r = Some (set_Body req body)).
  { exists (r_Body req). rewrite set_Body_same. exact Hr. }
  unfold Fire. destruct (String.eqb (HookUrl h) ""); [exact Same|].
  unfold snapshot.
  destruct (Data entry !! REQUEST_FIELD_KEY) as [[valReq| | | |]|];
    try exact Same.
  destruct (Request valReq) as [r0|]; [|exact Same].
  destruct (requests w !! r0) as [req0|] eqn:Hr0; [|exact Same].
  pose proof (fresh_not_key _ _ _ Hr) as Hfr.
  unfold Request_Clone, new_buffer, io_ReadAll, set_requests, set_readers.
  destruct (r_Body req0) as [b|]; cbn [world requests readers].
  - destruct (readers w !! b); cbn [world requests readers];
      (destruct (decide (r = r0)) as [->|Hne];
       [ assert (req0 = req) as -> by congruence; eexists;
         rewrite lookup_insert_ne, lookup_insert_eq by congruence; reflexivity
       | exists (r_Body req); rewrite set_Body_same;
         rewrite !lookup_insert_ne by congruence; exact Hr ]).
  - exists (r_Body req). rewrite set_Body_same.
    rewrite lookup_insert_ne by congruence. exact Hr.
Qed.

(** X3.  [Fire] reads no reader but the body of the request it logs: every
    other reader of the store holds after [Fire] what it held before. *)
Theorem Fire_keeps_readers (h : Hook) (entry : Entry) (w : World) (b : loc)
    (rd : Reader) :
  readers w !! b = Some rd ->
  (forall valReq r req,
     Data entry !! REQUEST_FIELD_KEY = Some (VPayload valReq) ->
     Request valReq = Some r ->
     requests w !! r = Some req ->
     r_Body req <> Some b) ->
  readers (world (Fire h entry w)) !! b = Some rd.
Proof.
  intros Hb Hother.
  unfold Fire. destruct (String.eqb (HookUrl h) ""); [exact Hb|].
  unfold snapshot.
  destruct (Data entry !! REQUEST_FIELD_KEY) as [[valReq| | | |]|] eqn:HD;
    try exact Hb.
  destruct (Request valReq) as [r0|] eqn:HR; [|exact Hb].
  destruct (requests w !! r0) as [req0|] eqn:Hr0; [|exact Hb].
  specialize (Hother valReq r0 req0 eq_refl HR Hr0).
  unfold Request_Clone, new_buffer, io_ReadAll, set_requests, set_readers.
  destruct (r_Body req0) as [b0|]; cbn [world requests readers]; [|exact Hb].
  assert (b0 <> b) by congruence.
  destruct (readers w !! b0) as [rd0|] eqn:Hb0; cbn [world requests readers].
  - set (rs1 := <[b0 := _]> (readers w)).
    assert (H1 : rs1 !! b = Some rd)
      by (unfold rs1; rewrite lookup_insert_ne by assumption; exact Hb).
    pose proof (fresh_not_key _ _ _ H1) as F1.
    set (rs2 := <[fresh (dom rs1) := _]> rs1).
    assert (H2 : rs2 !! b = Some rd)
      by (unfold rs2; rewrite lookup_insert_ne by congruence; exact H1).
    pose proof (fresh_not_key _ _ _ H2) as F2.
    rewrite lookup_insert_ne by congruence. exact H2.
  - pose proof (fresh_not_key _ _ _ Hb) as F1.
    set (rs2 := <[fresh (dom (readers w)) := _]> (readers w)).
    assert (H2 : rs2 !! b = Some rd)
      by (unfold rs2; rewrite lookup_insert_ne by congruence; exact Hb).
    pose proof (fresh_not_key _ _ _ H2) as F2.
    rewrite lookup_insert_ne by congruence. exact H2.
Qed.

(** The store a snapshot of a request with a body leaves, in full. *)
Lemma snapshot_live_request_store entry w valReq r req b rd :
  Data entry !! REQUEST_FIELD_KEY = Some (VPayload valReq) ->
  Request valReq = Some r ->
  requests w !! r = Some req ->
  r_Body req = Some b ->
  readers w !! b = Some rd ->
  exists r2 b1 b2,
    (r2 ∉ dom (requests w)) /\ (b1 ∉ dom (readers w))
    /\ (b2 ∉ dom (readers w)) /\ b1 <> b2
    /\ snapshot entry w
       = (Some (mkPayload (Some r2) "" "" "" ""),
          {| requests :=
               <[r2 := set_Body req (Some b2)]>
                 (<[r := set_Body req (Some b1)]> (requests w));
             readers :=
               <[b2 := {| pending := pending rd; fault := None |}]>
                 (<[b1 := {| pending := pending rd; fault := None |}]>
                    (<[b := {| pending := ""; fault := fault rd |}]>
                       (readers w))) |}).
Proof.
  intros HD HR Hr Hb Hrd.
  unfold snapshot. rewrite HD, HR, Hr, Hb.
  unfold Request_Clone, new_buffer, io_ReadAll, set_requests, set_readers.
  cbn [readers requests]. rewrite Hrd. cbn [readers requests].
  set (r2 := fresh (dom (requests w))).
  set (rs1 := <[b := _]> (readers w)).
  set (b1 := fresh (dom rs1)).
  set (rs2 := <[b1 := _]> rs1).
  set (b2 := fresh (dom rs2)).
  assert (F2 : r2 ∉ dom (requests w)) by apply is_fresh.
  assert (Fb1 : b1 ∉ dom rs1) by apply is_fresh.
  assert (Fb2 : b2 ∉ dom rs2) by apply is_fresh.
  unfold rs2 in Fb2. rewrite dom_insert_L in Fb2.
  unfold rs1 in Fb1, Fb2. rewrite dom_insert_L in Fb1, Fb2.
  assert (r <> r2).
  { intros ->. apply F2, elem_of_dom. eauto. }
  assert (b1 <> b2) by set_solver.
  assert (b1 ∉ dom (readers w)) by set_solver.
  assert (b2 ∉ dom (readers w)) by set_solver.
  exists r2, b1, b2. do 4 (split; [assumption|]).
  f_equal. f_equal.
  rewrite (insert_insert_ne _ r r2) by assumption.
  rewrite insert_insert_eq. reflexivity.
Qed.

(** X4.  Firing twice on the same entry: the second snapshot finds the
    body the first one put back.  After both, the request and the two
    snapshots read the same bytes [B] from three readers of their own, and
    the two snapshots are different requests with the method, URL, header
    and form of the logged one. *)
Theorem Fire_twice (h : Hook) (entry : Entry) (w : World)
    (valReq : LoggerHttpRequestPayload) (r : loc) (req : httpRequest)
    (b : loc) (B : string) :
  HookUrl h <> "" ->
  Data entry !! REQUEST_FIELD_KEY = Some (VPayload valReq) ->
  Request valReq = Some r ->
  requests w !! r = Some req ->
  r_Body req = Some b ->
  readers w !! b = Some {| pending := B; fault := None |} ->
  exists r2 r3 b1 b2 b3,
    spawned (Fire h entry w)
    = Some (mkTask h entry (Some (mkPayload (Some r2) "" "" "" "")))
    /\ spawned (Fire h entry (world (Fire h entry w)))
       = Some (mkTask h entry (Some (mkPayload (Some r3) "" "" "" "")))
    /\ r2 <> r3 /\ b1 <> b2 /\ b1 <> b3 /\ b2 <> b3
    /\ requests (world (Fire h entry (world (Fire h entry w)))) !! r
       = Some (set_Body req (Some b1))
    /\ requests (world (Fire h entry (world (Fire h entry w)))) !! r2
       = Some (set_Body req (Some b2))
    /\ requests (world (Fire h entry (world (Fire h entry w)))) !! r3
       = Some (set_Body req (Some b3))
    /\ yields (world (Fire h entry (world (Fire h entry w)))) b1 B
    /\ yields (world (Fire h entry (world (Fire h entry w)))) b2 B
    /\ yields (world (Fire h entry (world (Fire h entry w)))) b3 B.
Proof.
  intros Hurl HD HR Hr Hb Hrd.
  destruct (snapshot_live_request_store _ _ _ _ _ _ _ HD HR Hr Hb Hrd)
    as (r2 & c1 & b2 & F2 & Fc1 & Fb2 & Hc12 & Hs1).
  cbn [pending fault] in Hs1.
  rewrite (Fire_with_url h entry w Hurl), Hs1. cbn [world spawned fst snd].
  set (w1 := {| requests := _; readers := _ |}) in *.
  assert (Hrr2 : r <> r2).
  { intros ->. apply F2, elem_of_dom. eauto. }
  assert (Hr1 : requests w1 !! r = Some (set_Body req (Some c1))).
  { unfold w1. cbn [requests].
    rewrite lookup_insert_ne, lookup_insert_eq by congruence. reflexivity. }
  assert (Hr2 : requests w1 !! r2 = Some (set_Body req (Some b2))).
  { unfold w1. cbn [requests]. rewrite lookup_insert_eq. reflexivity. }
  assert (Hc1 : readers w1 !! c1 = Some {| pending := B; fault := None |}).
  { unfold w1. cbn [readers].
    rewrite lookup_insert_ne, lookup_insert_eq by congruence. reflexivity. }
  assert (Hb2 : readers w1 !! b2 = Some {| pending := B; fault := None |}).
  { unfold w1. cbn [readers]. rewrite lookup_insert_eq. reflexivity. }
  destruct (snapshot_live_request_store entry w1 valReq r
              (set_Body req (Some c1)) c1 _ HD HR Hr1 eq_refl Hc1)
    as (r3 & b1 & b3 & F3 & Fb1 & Fb3 & Hb13 & Hs2).
  cbn [pending fault] in Hs2.
  change (set_Body (set_Body req (Some c1)) (Some b1))
    with (set_Body req (Some b1)) in Hs2.
  change (set_Body (set_Body req (Some c1)) (Some b3))
    with (set_Body req (Some b3)) in Hs2.
  rewrite (Fire_with_url h entry w1 Hurl), Hs2. cbn [world spawned fst snd].
  assert (r2 <> r3).
  { intros ->. apply F3, elem_of_dom. eauto. }
  assert (r <> r3).
  { intros ->. apply F3, elem_of_dom. eauto. }
  assert (b1 <> b2).
  { intros ->. apply Fb1, elem_of_dom. eauto. }
  assert (b2 <> b3).
  { intros ->. apply Fb3, elem_of_dom. eauto. }
  assert (c1 <> b1).
  { intros ->. apply Fb1, elem_of_dom. eauto. }
  exists r2, r3, b1, b2, b3.
  split; [reflexivity|]. split; [reflexivity|].
  do 4 (split; [congruence|]). cbn [requests readers].
  split_and!.
  - rewrite lookup_insert_ne, lookup_insert_eq by congruence. reflexivity.
  - rewrite !lookup_insert_ne by congruence. exact Hr2.
  - rewrite lookup_insert_eq. reflexivity.
  - apply yields_lookup. cbn [readers].
    rewrite lookup_insert_ne, lookup_insert_eq by congruence. reflexivity.
  - apply yields_lookup. cbn [readers].
    rewrite !lookup_insert_ne by congruence. exact Hb2.
  - apply yields_lookup. cbn [readers]. rewrite lookup_insert_eq. reflexivity.
Qed.

(** What the goroutine reads of a body depends on the reader behind it and
    on the locations in use, not on the other readers. *)
Lemma read_body_agree req r w1 w2 :
  (forall b, r_Body req = Some b -> readers w1 !! b = readers w2 !! b) ->
  dom (readers w1) = dom (readers w2) ->
  fst (read_body req r w1) = fst (read_body req r w2).
Proof.
  intros Hsame Hdom. unfold read_body.
  destruct (r_Body req) as [b|]; [|reflexivity].
  unfold io_ReadAll. rewrite <- (Hsame b eq_refl).
  destruct (readers w1 !! b) as [rd|];
    unfold new_buffer, set_readers; cbn [readers requests fst snd].
  - rewrite !dom_insert_L, Hdom. reflexivity.
  - rewrite Hdom. reflexivity.
Qed.

Lemma payload_fields_agree go drp r req w1 w2 :
  Request drp = Some r ->
  requests w1 !! r = Some req ->
  requests w2 !! r = Some req ->
  (forall b, r_Body req = Some b -> readers w1 !! b = readers w2 !! b) ->
  dom (readers w1) = dom (readers w2) ->
  payload_fields go (Some drp) w1 = payload_fields go (Some drp) w2.
Proof.
  intros HR H1 H2 Hsame Hdom.
  destruct (r_URL req) as [u|] eqn:HU.
  - rewrite (payload_fields_live _ _ _ _ _ _ HR H1 HU),
      (payload_fields_live _ _ _ _ _ _ HR H2 HU).
    rewrite (read_body_agree req r w1 w2 Hsame Hdom). reflexivity.
  - rewrite (payload_fields_nil_URL _ _ _ _ _ HR H1 HU),
      (payload_fields_nil_URL _ _ _ _ _ HR H2 HU). reflexivity.
Qed.

(** X5.  The snapshot shields the delivery from the caller: when the
    caller, after [Fire] has returned, reads the body of its request to
    the end, the goroutine ends exactly as it would have otherwise. *)
Theorem delivery_survives_caller_read (go : Runtime) (h : Hook) (entry : Entry)
    (w : World) (valReq : LoggerHttpRequestPayload) (r : loc)
    (req : httpRequest) (b : loc) (rd : Reader) :
  HookUrl h <> "" ->
  Data entry !! REQUEST_FIELD_KEY = Some (VPayload valReq) ->
  Request valReq = Some r ->
  requests w !! r = Some req ->
  r_Body req = Some b ->
  readers w !! b = Some rd ->
  exists t b1,
    spawned (Fire h entry w) = Some t
    /\ requests (world (Fire h entry w)) !! r = Some (set_Body req (Some b1))
    /\ fst (fst (io_ReadAll b1 (world (Fire h entry w)))) = pending rd
    /\ run go t (snd (io_ReadAll b1 (world (Fire h entry w))))
       = run go t (world (Fire h entry w)).
Proof.
  intros Hurl HD HR Hr Hb Hrd.
  destruct (Fire_live_request _ _ _ _ _ _ _ _ Hurl HD HR Hr Hb Hrd)
    as (r2 & b1 & b2 & _ & H2 & _ & _ & _ & H6 & H7 & H8 & H9 & H10 & _).
  eexists. exists b1. split; [exact H2|]. split; [exact H7|].
  rewrite (io_ReadAll_lookup _ _ _ H9). split; [reflexivity|].
  unfold run, deliver. cbn [task_hook task_entry task_drp fst snd].
  rewrite (payload_fields_agree go _ r2 (set_Body req (Some b2))
             (set_readers <[b1 := {| pending := ""; fault := None |}]>
                (world (Fire h entry w)))
             (world (Fire h entry w))); try reflexivity.
  - exact H8.
  - exact H8.
  - intros b' Hb'. cbn [r_Body set_Body] in Hb'. injection Hb' as <-.
    cbn [readers set_readers]. rewrite lookup_insert_ne by assumption.
    reflexivity.
  - cbn [readers set_readers]. apply dom_insert_lookup_L. eauto.
Qed.

(** X6.  A request without a body (a GET, say) is cloned and nothing
    else: the store gains the clone, which is the request as it is; no
    reader is made or read; and the goroutine renders the clone, when it
    has a URL, with no body at all. *)
Theorem Fire_request_without_body (go : Runtime) (h : Hook) (entry : Entry)
    (w : World) (valReq : LoggerHttpRequestPayload) (r : loc)
    (req : httpRequest) :
  HookUrl h <> "" ->
  Data entry !! REQUEST_FIELD_KEY = Some (VPayload valReq) ->
  Request valReq = Some r ->
  requests w !! r = Some req ->
  r_Body req = None ->
  exists r2,
    (r2 ∉ dom (requests w))
    /\ spawned (Fire h entry w)
       = Some (mkTask h entry (Some (mkPayload (Some r2) "" "" "" "")))
    /\ world (Fire h entry w)
       = {| requests := <[r2 := req]> (requests w); readers := readers w |}
    /\ requests (world (Fire h entry w)) !! r = Some req
    /\ forall u : string,
         r_URL req = Some u ->
         payload_fields go (Some (mkPayload (Some r2) "" "" "" ""))
           (world (Fire h entry w))
         = bind (body_fields go req None)
                (fun more => Ok ([field "Method" (fence_sp (r_Method req));
                                  field "URL" (fence_sp u)]
                                 ++ more)%list).
Proof.
  intros Hurl HD HR Hr Hb.
  rewrite (Fire_with_url _ _ _ Hurl). unfold snapshot.
  rewrite HD, HR, Hr, Hb. unfold Request_Clone, set_requests.
  cbn [world spawned fst snd requests readers].
  pose proof (fresh_not_key _ _ _ Hr) as Hne.
  exists (fresh (dom (requests w))).
  split; [apply is_fresh|]. do 2 (split; [reflexivity|]).
  split; [rewrite lookup_insert_ne by congruence; exact Hr|].
  intros u HU.
  rewrite (payload_fields_live go
             (mkPayload (Some (fresh (dom (requests w)))) "" "" "" "") _
             (fresh (dom (requests w))) req u eq_refl)
    by (try exact HU; cbn [requests]; apply lookup_insert_eq).
  unfold read_body. rewrite Hb. reflexivity.
Qed.

(** X7.  A payload filled in by hand is copied as it is and the store is
    left alone.  The goroutine renders it without looking at the store:
    of Method, URL, Body and Headers, in this order, those that are not
    empty, each between code fences; the body is rendered whatever its
    length. *)
Theorem Fire_manual_payload (go : Runtime) (h : Hook) (entry : Entry)
    (w : World) (valReq : LoggerHttpRequestPayload) :
  HookUrl h <> "" ->
  Data entry !! REQUEST_FIELD_KEY = Some (VPayload valReq) ->
  Request valReq = None ->
  world (Fire h entry w) = w
  /\ spawned (Fire h entry w) = Some (mkTask h entry (Some valReq))
  /\ forall w' : World,
       payload_fields go (Some valReq) w'
       = Ok (List.map (fun nv => field (fst nv) ("```" +:+ snd nv +:+ " ```"))
               (List.filter (fun nv => negb (String.eqb (snd nv) ""))
                  [("Method", Method valReq); ("URL", URL valReq);
                   ("Body", BodyString valReq); ("Headers", Headers valReq)])).
Proof.
  intros Hurl HD HR.
  rewrite (Fire_with_url _ _ _ Hurl). unfold snapshot. rewrite HD, HR.
  cbn [world spawned fst snd].
  split; [reflexivity|]. split.
  - destruct valReq as [rq m u bs hs]. cbn in HR. subst rq. reflexivity.
  - intros w'. unfold payload_fields. rewrite HR.
    cbn [List.filter List.map fst snd].
    destruct (String.eqb (Method valReq) ""), (String.eqb (URL valReq) ""),
      (String.eqb (BodyString valReq) ""), (String.eqb (Headers valReq) "");
      reflexivity.
Qed.

(** X8.  A content type that contains "application/json" goes to the
    first case of the switch, whatever else it contains: the body of a
    request with a URL is rendered between code fences as it is, also when
    it is empty and also when it is longer than the 1024 bytes the default
    case allows. *)
Theorem json_body_field (go : Runtime) (drp : LoggerHttpRequestPayload)
    (w : World) (r : loc) (req : httpRequest) (u : string) :
  Request drp = Some r ->
  requests w !! r = Some req ->
  r_URL req = Some u ->
  strings_Contains (Header_Get (r_Header req) "Content-Type")
                   "application/json" = true ->
  payload_fields go (Some drp) w
  = Ok [field "Method" (fence_sp (r_Method req));
        field "URL" (fence_sp u);
        field "Body" ("```" +:+ body_bytes w req +:+ " ```")].
Proof.
  intros HR Hr HU Hj. rewrite (payload_fields_live _ _ _ _ _ _ HR Hr HU).
  unfold body_fields. cbv zeta. rewrite read_body_Header, Hj, read_body_bytes.
  reflexivity.
Qed.

(** *** The shape of the fields *)

Lemma append_assoc (a b c : string) : (a +:+ b) +:+ c = a +:+ (b +:+ c).
Proof.
  induction a as [|x a IH]; [reflexivity|].
  change (String x ((a +:+ b) +:+ c) = String x (a +:+ (b +:+ c))).
  rewrite IH. reflexivity.
Qed.

Lemma fence_sp_fence (s : string) : fence_sp s = fence (s +:+ " ").
Proof. unfold fence_sp, fence. rewrite append_assoc. reflexivity. Qed.

Lemma multipart_summary_shape go mf more :
  multipart_summary go mf = Ok more ->
  exists text, more = [field "Body" (fence text)].
Proof.
  unfold multipart_summary. destruct mf as [form|]; [|discriminate].
  destruct (mapM form_value (map_to_list (Value form))); [|discriminate].
  destruct (mapM (file_info go) (map_to_list (File form))); [|discriminate].
  cbn [bind]. unfold json_MarshalIndent. intros H. injection H as <-. eauto.
Qed.

Lemma body_fields_shape go req body more :
  body_fields go req body = Ok more ->
  more = [] \/ exists text, more = [field "Body" (fence text)].
Proof.
  unfold body_fields. cbv zeta.
  destruct (strings_Contains _ "application/json").
  { intros H. injection H as <-. right. rewrite fence_sp_fence. eauto. }
  destruct (strings_Contains _ "multipart/form-data").
  { destruct (Request_ParseMultipartForm go _ req body) as [[[|msg]|] mf];
      cbn [negb is_ErrNotMultipart].
    - intros H. right. eapply multipart_summary_shape, H.
    - intros H. injection H as <-. right. eauto.
    - intros H. right. eapply multipart_summary_shape, H. }
  destruct (strings_Contains _ "application/x-www-form-urlencoded").
  { destruct (0 <? String.length (default "" body))%nat;
      [|intros H; injection H as <-; left; reflexivity].
    destruct (url_ParseQuery (default "" body)) as [parsedForm [e|]];
      unfold json_MarshalIndent; intros H; injection H as <-; right.
    - rewrite fence_sp_fence. eauto.
    - eauto. }
  destruct (0 <? String.length (default "" body))%nat,
    (String.length (default "" body) <=? 1024)%nat;
    intros H; injection H as <-; try (left; reflexivity).
  right. rewrite fence_sp_fence. eauto.
Qed.

(** X9.  Whenever rendering returns, the "REQUEST PAYLOAD" embed has at
    most four fields; their names are among Method, URL, Body and
    Headers, in this order and none twice; and every value begins and
    ends with a code fence. *)
Theorem payload_fields_shape (go : Runtime)
    (drp : option LoggerHttpRequestPayload) (w : World) (fields : list JSON) :
  payload_fields go drp w = Ok fields ->
  length fields <= 4
  /\ exists names,
       sublist names ["Method"; "URL"; "Body"; "Headers"]
       /\ Forall2 (fun f n => exists text,
                     f = field n ("```" +:+ text +:+ "```"))
                  fields names.
Proof.
  intros H.
  assert (E : exists names,
            sublist names ["Method"; "URL"; "Body"; "Headers"]
            /\ Forall2 (fun f n => exists text, f = field n (fence text))
                       fields names).
  { destruct drp as [drp|]; [|injection H as <-; exists []; split;
                               [apply sublist_nil_l | constructor]].
    destruct (Request drp) as [r|] eqn:HR.
    - unfold payload_fields in H. rewrite HR in H.
      destruct (requests w !! r) as [req|]; [|discriminate].
      destruct (r_URL req) as [u|]; [|discriminate].
      destruct (read_body req r w) as [[body req'] w'].
      destruct (body_fields go req' body) as [more|] eqn:Hm; [|discriminate].
      cbn [bind] in H. injection H as <-.
      destruct (body_fields_shape _ _ _ _ Hm) as [->|[text ->]].
      + exists ["Method"; "URL"]. split.
        * repeat first [apply sublist_nil | apply sublist_skip | apply sublist_cons].
        * repeat constructor; rewrite fence_sp_fence; eauto.
      + exists ["Method"; "URL"; "Body"]. split.
        * repeat first [apply sublist_nil | apply sublist_skip | apply sublist_cons].
        * repeat constructor; rewrite ?fence_sp_fence; eauto.
    - unfold payload_fields in H. rewrite HR in H. injection H as <-.
      exists ((if negb (String.eqb (Method drp) "") then ["Method"] else [])
              ++ (if negb (String.eqb (URL drp) "") then ["URL"] else [])
              ++ (if negb (String.eqb (BodyString drp) "") then ["Body"] else [])
              ++ (if negb (String.eqb (Headers drp) "") then ["Headers"] else []))%list.
      destruct (String.eqb (Method drp) ""), (String.eqb (URL drp) ""),
        (String.eqb (BodyString drp) ""), (String.eqb (Headers drp) "");
        cbn [negb app]; split;
        try (repeat first [apply sublist_nil | apply sublist_skip | apply sublist_cons]);
        repeat constructor; rewrite fence_sp_fence; eauto. }
  destruct E as (names & Hs & Hf). split.
  - rewrite (Forall2_length _ _ _ Hf). apply (sublist_length _ _ Hs).
  - exists names. split; [exact Hs|exact Hf].
Qed.

(** ** The goroutine *)

Lemma read_body_eq req r w b rd :
  r_Body req = Some b ->
  readers w !! b = Some rd ->
  read_body req r w
  = (Some (pending rd),
     set_Body req
       (Some (fresh (dom (<[b := {| pending := ""; fault := fault rd |}]>
                           (readers w))))),
     {| requests :=
          <[r := set_Body req
                   (Some (fresh (dom (<[b := {| pending := "";
                                                fault := fault rd |}]>
                                        (readers w)))))]> (requests w);
        readers :=
          <[fresh (dom (<[b := {| pending := ""; fault := fault rd |}]>
                          (readers w)))
            := {| pending := pending rd; fault := None |}]>
            (<[b := {| pending := ""; fault := fault rd |}]> (readers w)) |}).
Proof.
  intros Hb Hrd. unfold read_body. rewrite Hb, (io_ReadAll_lookup _ _ _ Hrd).
  reflexivity.
Qed.

(** X10.  The goroutine reads the body of its request and puts it back
    (lines 166-173): reading it a second time yields the same bytes; the
    request is otherwise as it was; and no other request and no other
    reader of the store is touched. *)
Theorem read_body_restores (req : httpRequest) (r : loc) (w : World) (b : loc)
    (rd : Reader) :
  r_Body req = Some b ->
  readers w !! b = Some rd ->
  fst (fst (read_body req r w)) = Some (pending rd)
  /\ fst (fst (read_body (snd (fst (read_body req r w))) r
                         (snd (read_body req r w))))
     = Some (pending rd)
  /\ (exists b', (b' ∉ dom (readers w))
                 /\ snd (fst (read_body req r w)) = set_Body req (Some b'))
  /\ requests (snd (read_body req r w)) !! r = Some (snd (fst (read_body req r w)))
  /\ (forall r0, r0 <> r ->
      requests (snd (read_body req r w)) !! r0 = requests w !! r0)
  /\ (forall b0 rd0, b0 <> b -> readers w !! b0 = Some rd0 ->
      readers (snd (read_body req r w)) !! b0 = Some rd0).
Proof.
  intros Hb Hrd. rewrite (read_body_eq _ _ _ _ _ Hb Hrd).
  cbn [fst snd readers requests].
  set (rs1 := <[b := _]> (readers w)).
  assert (F : fresh (dom rs1) ∉ dom rs1) by apply is_fresh.
  unfold rs1 in F at 2. rewrite dom_insert_L in F.
  split; [reflexivity|]. split.
  - apply (read_body_lookup (set_Body req (Some (fresh (dom rs1)))) r _
             (fresh (dom rs1)) {| pending := pending rd; fault := None |}
             eq_refl).
    cbn [readers]. apply lookup_insert_eq.
  - split; [exists (fresh (dom rs1)); split; [set_solver|reflexivity]|].
    split; [apply lookup_insert_eq|]. split.
    + intros r0 Hne. apply lookup_insert_ne. congruence.
    + intros b0 rd0 Hne H0.
      assert (b0 <> fresh (dom rs1)).
      { intros ->. apply F. apply elem_of_union_r, elem_of_dom. eauto. }
      rewrite lookup_insert_ne by congruence. unfold rs1.
      rewrite lookup_insert_ne by congruence. exact H0.
Qed.

(** X11.  When [http.NewRequest] rejects the URL of the hook, nothing is
    posted, and the two branches part: with a message of more than 500
    bytes the goroutine prints the error and returns; with a shorter one
    it sets a header on the nil request (line 396 comes before the check
    of line 397) and panics. *)
Theorem NewRequest_failure (go : Runtime) (h : Hook) (entry : Entry)
    (drp : option LoggerHttpRequestPayload) (w : World) (fields : list JSON)
    (e : error) :
  payload_fields go drp w = Ok fields ->
  http_NewRequest go "POST" (HookUrl h) = Some e ->
  deliver go h entry drp w
  = if (String.length (Message entry) <=? 500)%nat
    then Crashed nil_dereference
    else Aborted (Error e).
Proof.
  intros Hf He. rewrite (deliver_rendered _ _ _ _ _ _ Hf), He.
  assert (E : (String.length (Message entry) <=? 500)%nat = negb (sendAsFile entry))
    by apply Nat.leb_antisym.
  rewrite E. destruct (sendAsFile entry); reflexivity.
Qed.

(** X12.  In the multipart case the form is read through
    [drp.Request.MultipartForm] whenever [ParseMultipartForm] returns nil
    or [http.ErrNotMultipart]; when the form it left is nil, the goroutine
    panics and nothing is posted. *)
Theorem nil_form_panics (go : Runtime) (h : Hook) (entry : Entry)
    (drp : LoggerHttpRequestPayload) (w : World) (r : loc) (req : httpRequest) :
  Request drp = Some r ->
  requests w !! r = Some req ->
  strings_Contains (Header_Get (r_Header req) "Content-Type")
                   "application/json" = false ->
  strings_Contains (Header_Get (r_Header req) "Content-Type")
                   "multipart/form-data" = true ->
  snd (parse_answer go (32 * 1024 * 1024) w r req) = None ->
  (forall msg,
     fst (parse_answer go (32 * 1024 * 1024) w r req) <> Some (ErrText msg)) ->
  payload_fields go (Some drp) w = Panic nil_dereference
  /\ deliver go h entry (Some drp) w = Crashed nil_dereference.
Proof.
  intros HR Hr H1 H2 Hnil Herr.
  assert (E : payload_fields go (Some drp) w = Panic nil_dereference).
  { destruct (r_URL req) as [u|] eqn:HU;
      [|apply (payload_fields_nil_URL _ _ _ _ _ HR Hr HU)].
    rewrite (payload_fields_live _ _ _ _ _ _ HR Hr HU).
    rewrite body_fields_multipart by (rewrite read_body_Header; assumption).
    unfold parse_answer in Hnil, Herr.
    destruct (Request_ParseMultipartForm go _ _ _) as [[[|msg]|] mf];
      cbn [fst snd] in *; subst mf; try reflexivity.
    destruct (Herr msg eq_refl). }
  split; [exact E|]. apply deliver_crashed, E.
Qed.

Lemma mapM_form_value (l : list (string * list string)) :
  mapM form_value l
  = if forallb (fun kv => (0 <? length (snd kv))%nat) l
    then Ok (List.map (fun kv => (fst kv, value_summary (snd kv))) l)
    else Panic index_out_of_range.
Proof.
  induction l as [|[key values] l IH]; [reflexivity|].
  cbn [mapM forallb List.map fst snd]. rewrite IH.
  destruct values as [|v values]; [reflexivity|].
  rewrite (form_value_total (key, v :: values)) by discriminate.
  cbn [bind andb Nat.ltb Nat.leb length fst snd].
  destruct (forallb _ l); reflexivity.
Qed.

Lemma mapM_file_info go (l : list (string * list FileHeader)) :
  mapM (file_info go) l
  = if forallb (fun kv => (0 <? length (snd kv))%nat) l
    then Ok (List.map (fun kv => (fst kv, file_summary go (snd kv))) l)
    else Panic index_out_of_range.
Proof.
  induction l as [|[key files] l IH]; [reflexivity|].
  cbn [mapM forallb List.map fst snd]. rewrite IH.
  destruct files as [|f files]; [reflexivity|].
  rewrite (file_info_total go (key, f :: files)) by discriminate.
  cbn [bind andb Nat.ltb Nat.leb length fst snd].
  destruct (forallb _ l); reflexivity.
Qed.

(** X13.  The summary of a parsed form takes [values[0]] and [files[0]]
    of every key that has not several: on a request with a URL, a form in
    which some key has an empty list of values or of files makes the
    goroutine panic with an index out of range, and nothing is posted. *)
Theorem empty_values_panic (go : Runtime) (h : Hook) (entry : Entry)
    (drp : LoggerHttpRequestPayload) (w : World) (r : loc) (req : httpRequest)
    (u : string) (form : Form) :
  Request drp = Some r ->
  requests w !! r = Some req ->
  r_URL req = Some u ->
  strings_Contains (Header_Get (r_Header req) "Content-Type")
                   "application/json" = false ->
  strings_Contains (Header_Get (r_Header req) "Content-Type")
                   "multipart/form-data" = true ->
  parse_answer go (32 * 1024 * 1024) w r req = (None, Some form) ->
  populatedb form = false ->
  payload_fields go (Some drp) w = Panic index_out_of_range
  /\ deliver go h entry (Some drp) w = Crashed index_out_of_range.
Proof.
  intros HR Hr HU H1 H2 Hp Hform.
  assert (E : payload_fields go (Some drp) w = Panic index_out_of_range).
  { rewrite (payload_fields_live _ _ _ _ _ _ HR Hr HU).
    rewrite body_fields_multipart by (rewrite read_body_Header; assumption).
    unfold parse_answer in Hp. rewrite Hp. cbn [fst snd].
    unfold multipart_summary. rewrite mapM_form_value, mapM_file_info.
    unfold populatedb in Hform.
    destruct (forallb _ (map_to_list (Value form))); [|reflexivity].
    cbn [andb] in Hform. rewrite Hform. reflexivity. }
  split; [exact E|]. apply deliver_crashed, E.
Qed.

(** X14.  The document of every request the goroutine posts has the user
    name "Golang" and two or three embeds: the level in upper case, then
    "REQUEST PAYLOAD" with the fields, which is there also when the entry
    has no request, then "MESSAGE" when the message has at most 500
    bytes.  All of them carry the same colour, that of the level, and the
    first alone a timestamp. *)
Theorem posted_document_sections (go : Runtime) (h : Hook) (entry : Entry)
    (drp : option LoggerHttpRequestPayload) (w : World) (p : Post) :
  deliver go h entry drp w = Posted p ->
  exists fields,
    payload_fields go drp w = Ok fields
    /\ payload_json p = [marshal go (document go entry fields)]
    /\ member "username" (document go entry fields) = Some (JString "Golang")
    /\ List.map (member "title") (embeds go entry fields)
       = ([Some (JString (strings_ToUpper (Level_String (EntryLevel entry))));
           Some (JString "REQUEST PAYLOAD")]
          ++ (if (String.length (Message entry) <=? 500)%nat
              then [Some (JString "MESSAGE")] else []))%list
    /\ List.map (member "fields") (embeds go entry fields)
       = ([None; Some (JArray fields)]
          ++ (if (String.length (Message entry) <=? 500)%nat
              then [None] else []))%list
    /\ List.map (member "timestamp") (embeds go entry fields)
       = ([Some (JString (time_Format_RFC3339 go (Time entry))); None]
          ++ (if (String.length (Message entry) <=? 500)%nat
              then [None] else []))%list
    /\ Forall (fun embed =>
                 member "color" embed
                 = Some (JNumber (embedCollor (EntryLevel entry))))
              (embeds go entry fields).
Proof.
  intros H.
  destruct (deliver_posted_inv _ _ _ _ _ _ H) as (fields & Hf & Hn).
  destruct (deliver_posts go h entry drp w fields Hf Hn) as (p' & Hp' & _ & Hj).
  assert (p' = p) as -> by congruence.
  exists fields. split; [exact Hf|]. split; [exact Hj|]. split; [reflexivity|].
  assert (E : (String.length (Message entry) <=? 500)%nat = negb (sendAsFile entry))
    by apply Nat.leb_antisym.
  rewrite E. unfold embeds, message_embed.
  destruct (sendAsFile entry); cbn [negb app List.map];
    repeat split; repeat constructor.
Qed.

(** X15.  An "error" value that is neither an error nor a string is
    passed over in silence: the document is the one the entry would give
    without it, with an empty description. *)
Theorem odd_error_ignored (go : Runtime) (entry : Entry) (fields : list JSON) :
  (forall msg, Data entry !! "error" <> Some (VError msg)) ->
  (forall s, Data entry !! "error" <> Some (VString s)) ->
  errorMessage entry = ""
  /\ document go entry fields
     = document go {| Data := delete "error" (Data entry); Time := Time entry;
                      EntryLevel := EntryLevel entry; Message := Message entry |}
                fields.
Proof.
  intros He Hs.
  assert (E : errorMessage entry = "").
  { unfold errorMessage.
    destruct (Data entry !! "error") as [[| |msg|s|]|]; try reflexivity.
    - destruct (He msg eq_refl).
    - destruct (Hs s eq_refl). }
  split; [exact E|].
  unfold document, embeds, message_embed, sendAsFile. rewrite E.
  unfold errorMessage. cbn [Data Time EntryLevel Message].
  rewrite lookup_delete_eq. reflexivity.
Qed.

(** X16.  Of the fields of an entry, "request" and "error" alone are
    read: a field under any other key changes neither the snapshot nor
    the document nor the way the goroutine ends. *)
Theorem other_fields_not_rendered (go : Runtime) (h : Hook) (entry : Entry)
    (key : string) (v : Any) :
  key <> REQUEST_FIELD_KEY ->
  key <> "error" ->
  (forall w,
     snapshot {| Data := <[key := v]> (Data entry); Time := Time entry;
                 EntryLevel := EntryLevel entry; Message := Message entry |} w
     = snapshot entry w)
  /\ (forall fields,
        document go {| Data := <[key := v]> (Data entry); Time := Time entry;
                       EntryLevel := EntryLevel entry;
                       Message := Message entry |} fields
        = document go entry fields)
  /\ (forall drp w,
        deliver go h {| Data := <[key := v]> (Data entry); Time := Time entry;
                        EntryLevel := EntryLevel entry;
                        Message := Message entry |} drp w
        = deliver go h entry drp w).
Proof.
  intros Hreq Herr.
  assert (D : forall fields,
            document go {| Data := <[key := v]> (Data entry); Time := Time entry;
                           EntryLevel := EntryLevel entry;
                           Message := Message entry |} fields
            = document go entry fields).
  { intros fields. unfold document, embeds, message_embed, sendAsFile, errorMessage.
    cbn [Data Time EntryLevel Message].
    rewrite lookup_insert_ne by assumption. reflexivity. }
  split; [|split; [exact D|]].
  - intros w. unfold snapshot. cbn [Data].
    rewrite lookup_insert_ne by assumption. reflexivity.
  - intros drp w. unfold deliver.
    destruct (payload_fields go drp w) as [fields|why]; [|reflexivity].
    unfold json_Marshal. rewrite D. unfold sendAsFile. cbn [Message].
    reflexivity.
Qed.

(** X17.  [Fire] takes a request without URL as it takes any other: it
    returns nil and starts the goroutine on a clone, which has no URL
    either.  The goroutine panics at line 162, where it calls [String()]
    on the nil URL, before it reads the body or the content type, and
    nothing is posted. *)
Theorem nil_URL_panics (go : Runtime) (h : Hook) (entry : Entry) (w : World)
    (valReq : LoggerHttpRequestPayload) (r : loc) (req : httpRequest) :
  HookUrl h <> "" ->
  Data entry !! REQUEST_FIELD_KEY = Some (VPayload valReq) ->
  Request valReq = Some r ->
  requests w !! r = Some req ->
  r_URL req = None ->
  returned (Fire h entry w) = None
  /\ exists t,
       spawned (Fire h entry w) = Some t
       /\ run go t (world (Fire h entry w)) = Crashed nil_dereference.
Proof.
  intros Hurl HD HR Hr HU.
  rewrite (Fire_with_url _ _ _ Hurl). cbn [returned world spawned].
  split; [reflexivity|]. eexists. split; [reflexivity|].
  unfold run. cbn [task_hook task_entry task_drp]. apply deliver_crashed.
  unfold snapshot. rewrite HD, HR, Hr.
  unfold Request_Clone, set_requests. cbn [fst snd requests readers].
  destruct (r_Body req) as [b|].
  - unfold io_ReadAll. cbn [readers].
    destruct (readers w !! b) as [rd|];
      unfold new_buffer, set_requests, set_readers;
      cbn [fst snd requests readers];
      eapply payload_fields_nil_URL;
      [reflexivity | cbn [requests]; apply lookup_insert_eq | exact HU
      |reflexivity | cbn [requests]; apply lookup_insert_eq | exact HU].
  - cbn [fst snd].
    eapply payload_fields_nil_URL;
      [reflexivity | cbn [requests]; apply lookup_insert_eq | exact HU].
Qed.

(** * The further properties on the samples *)

(** A bystander request, at location 5. *)
Lemma Fire_keeps_requests_witness :
  exists body,
    requests (world (Fire Samples.hook (Samples.entry_with_request "upload failed")
                       More.busy_store)) !! 5
    = Some (set_Body (set_Body Samples.form_request (Some 7)) body).
Proof.
  apply (Fire_keeps_requests Samples.hook
           (Samples.entry_with_request "upload failed") More.busy_store 5).
  reflexivity.
Defined.

(** The body of the bystander, the reader at location 7. *)
Lemma Fire_keeps_readers_witness :
  readers (world (Fire Samples.hook (Samples.entry_with_request "upload failed")
                    More.busy_store)) !! 7
  = Some {| pending := "a=1"; fault := None |}.
Proof.
  apply (Fire_keeps_readers Samples.hook
           (Samples.entry_with_request "upload failed") More.busy_store 7).
  - reflexivity.
  - intros valReq r req HD HR Hr.
    vm_compute in HD. injection HD as <-.
    vm_compute in HR. injection HR as <-.
    vm_compute in Hr. injection Hr as <-. discriminate.
Defined.

(** Two firings on a request whose body holds "ping". *)
Lemma Fire_twice_witness :
  exists b1 b2 b3,
    b1 <> b2 /\ b1 <> b3 /\ b2 <> b3
    /\ yields (world (Fire Samples.hook (Samples.entry_with_request "upload failed")
                        (world (Samples.fired Samples.text_request "ping" None))))
              b1 "ping"
    /\ yields (world (Fire Samples.hook (Samples.entry_with_request "upload failed")
                        (world (Samples.fired Samples.text_request "ping" None))))
              b2 "ping"
    /\ yields (world (Fire Samples.hook (Samples.entry_with_request "upload failed")
                        (world (Samples.fired Samples.text_request "ping" None))))
              b3 "ping".
Proof.
  destruct (Fire_twice Samples.hook (Samples.entry_with_request "upload failed")
              (Samples.store Samples.text_request "ping" None)
              (mkPayload (Some 0) "" "" "" "") 0 Samples.text_request 0 "ping")
    as (r2 & r3 & b1 & b2 & b3 & _ & _ & _ & H1 & H2 & H3 & _ & _ & _
        & H4 & H5 & H6);
    [discriminate | reflexivity ..|].
  exists b1, b2, b3. unfold Samples.fired. repeat split; assumption.
Defined.

(** The caller reads "ping" from its request after [Fire]. *)
Lemma delivery_survives_caller_read_witness :
  exists t b1,
    spawned (Samples.fired Samples.text_request "ping" None) = Some t
    /\ fst (fst (io_ReadAll b1 (world (Samples.fired Samples.text_request "ping" None))))
       = "ping"
    /\ run Samples.rt t
         (snd (io_ReadAll b1 (world (Samples.fired Samples.text_request "ping" None))))
       = run Samples.rt t (world (Samples.fired Samples.text_request "ping" None)).
Proof.
  destruct (delivery_survives_caller_read Samples.rt Samples.hook
              (Samples.entry_with_request "upload failed")
              (Samples.store Samples.text_request "ping" None)
              (mkPayload (Some 0) "" "" "" "") 0 Samples.text_request 0
              {| pending := "ping"; fault := None |})
    as (t & b1 & H1 & _ & H2 & H3); [discriminate | reflexivity ..|].
  exists t, b1. unfold Samples.fired. repeat split; assumption.
Defined.

(** A GET request. *)
Lemma Fire_request_without_body_witness :
  exists r2,
    world (Fire Samples.hook (Samples.entry_with_request "not found") More.get_store)
    = {| requests := <[r2 := More.get_request]> (requests More.get_store);
         readers := readers More.get_store |}
    /\ payload_fields Samples.rt (Some (mkPayload (Some r2) "" "" "" ""))
         (world (Fire Samples.hook (Samples.entry_with_request "not found")
                   More.get_store))
       = Ok [field "Method" "```GET ```"; field "URL" "```/users/7 ```"].
Proof.
  destruct (Fire_request_without_body Samples.rt Samples.hook
              (Samples.entry_with_request "not found") More.get_store
              (mkPayload (Some 0) "" "" "" "") 0 More.get_request)
    as (r2 & _ & _ & H1 & _ & H2); [discriminate | reflexivity ..|].
  exists r2. split; [exact H1|]. rewrite (H2 "/users/7" eq_refl). reflexivity.
Defined.

(** The payload of the README, with method, URL and body. *)
Lemma Fire_manual_payload_witness :
  spawned (Fire Samples.hook More.entry_manual Samples.empty_store)
  = Some (mkTask Samples.hook More.entry_manual (Some More.manual_payload))
  /\ payload_fields Samples.rt (Some More.manual_payload) Samples.empty_store
     = Ok [field "Method" "```POST ```";
           field "URL" "```https://api.example.com/users ```";
           field "Body" "```name=John ```"].
Proof.
  destruct (Fire_manual_payload Samples.rt Samples.hook More.entry_manual
              Samples.empty_store More.manual_payload)
    as (_ & H1 & H2); [discriminate | reflexivity | reflexivity |].
  split; [exact H1|]. rewrite H2. reflexivity.
Defined.

(** A JSON request with an empty body, and one with 1025 bytes. *)
Lemma json_body_field_witness :
  payload_fields Samples.rt (Some Samples.snapshot_payload)
    (world (Samples.fired More.json_request "" None))
  = Ok [field "Method" "```POST ```"; field "URL" "```/users ```";
        field "Body" "``` ```"]
  /\ payload_fields Samples.rt (Some Samples.snapshot_payload)
       (world (Samples.fired More.json_request (repeat_string "x" 1025) None))
     = Ok [field "Method" "```POST ```"; field "URL" "```/users ```";
           field "Body" ("```" +:+ repeat_string "x" 1025 +:+ " ```")].
Proof.
  split.
  - rewrite (json_body_field Samples.rt Samples.snapshot_payload
               (world (Samples.fired More.json_request "" None)) 1
               (set_Body More.json_request (Some 2)) "/users"); reflexivity.
  - rewrite (json_body_field Samples.rt Samples.snapshot_payload
               (world (Samples.fired More.json_request (repeat_string "x" 1025)
                         None)) 1
               (set_Body More.json_request (Some 2)) "/users");
      [vm_compute; reflexivity | reflexivity | reflexivity
      | vm_compute; reflexivity | reflexivity].
Defined.

(** The fields of the hand-filled payload. *)
Lemma payload_fields_shape_witness :
  exists fields,
    payload_fields Samples.rt (Some More.manual_payload) Samples.empty_store
    = Ok fields
    /\ length fields <= 4.
Proof.
  destruct (payload_fields Samples.rt (Some More.manual_payload)
              Samples.empty_store) as [fields|why] eqn:E;
    [|vm_compute in E; discriminate].
  exists fields. split; [reflexivity|].
  apply (payload_fields_shape Samples.rt (Some More.manual_payload)
           Samples.empty_store fields E).
Defined.

(** The goroutine reads "ping" twice. *)
Lemma read_body_restores_witness :
  fst (fst (read_body Samples.text_request 0
              (Samples.store Samples.text_request "ping" None)))
  = Some "ping"
  /\ fst (fst (read_body
                 (snd (fst (read_body Samples.text_request 0
                              (Samples.store Samples.text_request "ping" None))))
                 0
                 (snd (read_body Samples.text_request 0
                         (Samples.store Samples.text_request "ping" None)))))
     = Some "ping".
Proof.
  destruct (read_body_restores Samples.text_request 0
              (Samples.store Samples.text_request "ping" None) 0
              {| pending := "ping"; fault := None |})
    as (H1 & H2 & _); [reflexivity ..|].
  split; assumption.
Defined.


(** A URL that ends in a line feed, with a short and with a long
    message. *)
Lemma NewRequest_failure_witness :
  deliver Samples.rt More.hook_bad_url Samples.entry_500 None Samples.empty_store
  = Crashed nil_dereference
  /\ exists diagnostic,
       deliver Samples.rt More.hook_bad_url Samples.entry_501 None
         Samples.empty_store
       = Aborted diagnostic.
Proof.
  destruct (http_NewRequest Samples.rt "POST" (HookUrl More.hook_bad_url))
    as [e|] eqn:E; [|vm_compute in E; discriminate].
  assert (L0 : (String.length (Message Samples.entry_500) <=? 500)%nat = true)
    by (vm_compute; reflexivity).
  assert (L1 : (String.length (Message Samples.entry_501) <=? 500)%nat = false)
    by (vm_compute; reflexivity).
  split.
  - rewrite (NewRequest_failure Samples.rt More.hook_bad_url Samples.entry_500
               None Samples.empty_store [] e eq_refl E), L0.
    reflexivity.
  - exists (Error e).
    rewrite (NewRequest_failure Samples.rt More.hook_bad_url Samples.entry_501
               None Samples.empty_store [] e eq_refl E), L1.
    reflexivity.
Defined.

(** A content type that names multipart/form-data without being it. *)
Lemma nil_form_panics_witness :
  deliver Samples.rt Samples.hook (Samples.entry_with_request "upload failed")
    (Some Samples.snapshot_payload)
    (world (Samples.fired Samples.mistyped_request "x" None))
  = Crashed nil_dereference.
Proof.
  apply (nil_form_panics Samples.rt Samples.hook
           (Samples.entry_with_request "upload failed") Samples.snapshot_payload
           (world (Samples.fired Samples.mistyped_request "x" None)) 1
           (set_Body Samples.mistyped_request (Some 2)));
    try reflexivity.
  intros msg. vm_compute. discriminate.
Defined.

(** A form, parsed before, in which the key "name" has no value. *)
Lemma empty_values_panic_witness :
  populatedb More.holed_form = false
  /\ deliver Samples.rt Samples.hook (Samples.entry_with_request "upload failed")
       (Some Samples.snapshot_payload)
       (world (Samples.fired More.holed_request "" None))
     = Crashed index_out_of_range.
Proof.
  split; [reflexivity|].
  apply (empty_values_panic Samples.rt Samples.hook
           (Samples.entry_with_request "upload failed") Samples.snapshot_payload
           (world (Samples.fired More.holed_request "" None)) 1
           (set_Body More.holed_request (Some 2)) "/users" More.holed_form);
    reflexivity.
Defined.

(** An Error entry with a message of 500 bytes and no request. *)
Lemma posted_document_sections_witness :
  exists p,
    deliver Samples.rt Samples.hook Samples.entry_500 None Samples.empty_store
    = Posted p
    /\ List.map (member "title") (embeds Samples.rt Samples.entry_500 [])
       = [Some (JString "ERROR"); Some (JString "REQUEST PAYLOAD");
          Some (JString "MESSAGE")]
    /\ Forall (fun embed => member "color" embed = Some (JNumber 16725591))
              (embeds Samples.rt Samples.entry_500 []).
Proof.
  destruct (deliver Samples.rt Samples.hook Samples.entry_500 None
              Samples.empty_store) as [p|d|why] eqn:E;
    [|vm_compute in E; discriminate ..].
  exists p. split; [reflexivity|].
  destruct (posted_document_sections _ _ _ _ _ _ E)
    as (fields & Hf & _ & _ & H1 & _ & _ & H2).
  injection Hf as <-.
  assert (L : (String.length (Message Samples.entry_500) <=? 500)%nat = true)
    by (vm_compute; reflexivity).
  rewrite L in H1. split; [exact H1|exact H2].
Defined.

(** An "error" value that is a number. *)
Lemma odd_error_ignored_witness :
  errorMessage More.entry_odd_error = ""
  /\ document Samples.rt More.entry_odd_error []
     = document Samples.rt (Samples.entry_plain "boom") [].
Proof.
  destruct (odd_error_ignored Samples.rt More.entry_odd_error [])
    as (H1 & H2); [intros msg; discriminate | intros s; discriminate |].
  split; [exact H1|]. rewrite H2. reflexivity.
Defined.

(** A field "user_email". *)
Lemma other_fields_not_rendered_witness :
  document Samples.rt More.entry_tagged []
  = document Samples.rt (Samples.entry_plain "boom") [].
Proof.
  destruct (other_fields_not_rendered Samples.rt Samples.hook
              (Samples.entry_plain "boom") "user_email"
              (VString "john@example.com"))
    as (_ & H & _); [discriminate | discriminate |].
  rewrite <- (H []). reflexivity.
Defined.

(** The request [&http.Request{Method: "GET", Header: http.Header{}}]. *)
Lemma nil_URL_panics_witness :
  returned (Fire Samples.hook (Samples.entry_with_request "not found")
              More.bare_store) = None
  /\ exists t,
       spawned (Fire Samples.hook (Samples.entry_with_request "not found")
                  More.bare_store) = Some t
       /\ run Samples.rt t
            (world (Fire Samples.hook (Samples.entry_with_request "not found")
                      More.bare_store))
          = Crashed nil_dereference.
Proof.
  apply (nil_URL_panics Samples.rt Samples.hook
           (Samples.entry_with_request "not found") More.bare_store
           (mkPayload (Some 0) "" "" "" "") 0 More.bare_request);
    [discriminate | reflexivity ..].
Defined.
